(** * rhf-zod-playground: multi-step forms over one domain schema

    A shallow embedding of the schema module ([schemas/onboarding.schema.ts]),
    the mock backend ([mock/api.ts]) and the two step-orchestrating
    components ([MultiStepSingleForm], [ConditionalStepsForm]), followed by
    the properties of step navigation, scoped validation and submission.

    Conventions.
    - A JS string is a [string]; its [length] is [String.length].
    - A JS number that holds a step index or a team size is a [Z].
    - A value of an optional field is an [option]; [None] is [undefined].
    - A string-literal union ([z.enum]) is an inductive type.
    - [useState] cells are fields of a component record; handlers are
      computations of a small state monad over that record. *)

From Stdlib Require Import ZArith String Ascii List Bool Lia.
From stdpp Require Import base option strings gmap list.

Import ListNotations.

#[local] Open Scope string_scope.

(* ===================================================================== *)
(** * Part I. Definitions                                                 *)
(* ===================================================================== *)

(** ** JavaScript helpers *)

Module JS.

(** [a || b] on strings that may be [undefined]: the empty string and
    [undefined] are both falsy. *)
Definition or_else (a : option string) (b : string) : string :=
  match a with
  | Some s => if String.eqb s EmptyString then b else s
  | None => b
  end.

(** [!s] for an optional string. *)
Definition falsy_string (a : option string) : bool :=
  match a with
  | Some s => String.eqb s EmptyString
  | None => true
  end.

(** [!n] for an optional number ([0] is falsy). *)
Definition falsy_number (a : option Z) : bool :=
  match a with
  | Some n => (n =? 0)%Z
  | None => true
  end.

(** [Array.prototype.includes] on an array of strings, looked up with a
    value that may be [undefined] (never equal to a string). *)
Definition includes (l : list string) (x : option string) : bool :=
  match x with
  | Some s => existsb (String.eqb s) l
  | None => false
  end.

(** [Array.prototype.findIndex]: the index of the first element that
    satisfies [p], or [-1]. *)
Fixpoint findIndex_from {A : Type} (p : A -> bool) (l : list A) (i : Z) : Z :=
  match l with
  | [] => (-1)%Z
  | x :: l' => if p x then i else findIndex_from p l' (i + 1)%Z
  end.

Definition findIndex {A : Type} (p : A -> bool) (l : list A) : Z :=
  findIndex_from p l 0%Z.

(** [arr[i]] for a numeric index: [undefined] out of range. *)
Definition nth_Z {A : Type} (l : list A) (i : Z) : option A :=
  if (i <? 0)%Z then None else l !! Z.to_nat i.

End JS.

(** ** The part of zod the schemas use *)

(** zod itself is an imported package.  Three of its built-ins that the
    schemas rely on have no definition in this repository: the test behind
    [.email()] and the texts of the default messages of [z.number().min(n)]
    and of a missing required key.
    They are the fields of this interface. *)
Class ZodBuiltins := {
  isEmail : string -> bool;
  tooSmallMessage : Z -> string;
  requiredMessage : string
}.

Module Zod.

(** An issue carries the path of the offending value and a message. *)
Record ZodIssue := { path : list string; message : string }.

(** [result.error.issues[0]?.path[0]] *)
Definition firstErrorPath (issues : list ZodIssue) : option string :=
  match issues with
  | [] => None
  | i :: _ => head (path i)
  end.

(** The issues raised at one of the given keys, in order. *)
Definition issuesAt (keys : list string) (issues : list ZodIssue) : list ZodIssue :=
  List.filter (fun i => JS.includes keys (head (path i))) issues.

(** All issues of a list are raised at one key. *)
Definition allAt (key : string) (issues : list ZodIssue) : Prop :=
  Forall (fun i => path i = [key]) issues.

(** The outcome of [safeParse]. *)
Inductive SafeParseReturn (A : Type) :=
| ParseSuccess (data : A)
| ParseError (issues : list ZodIssue).
Arguments ParseSuccess {A} data.
Arguments ParseError {A} issues.

(** A check of a string schema: [None] when the value passes, the
    message otherwise.  Checks of one chain all run; each failure adds
    an issue and marks the result dirty without aborting. *)
Definition StringCheck := string -> option string.

Definition min (n : nat) (msg : string) : StringCheck :=
  fun s => if (n <=? String.length s)%nat then None else Some msg.

Definition regex (re : string -> bool) (msg : string) : StringCheck :=
  fun s => if re s then None else Some msg.

Definition email `{ZodBuiltins} (msg : string) : StringCheck :=
  fun s => if isEmail s then None else Some msg.

(** [z.string().c1(..).c2(..)] parsed at key [key] of an object. *)
Definition z_string (checks : list StringCheck) (key : string) (s : string)
  : list ZodIssue :=
  flat_map (fun c => match c s with
                     | Some msg => [ {| path := [key]; message := msg |} ]
                     | None => []
                     end) checks.

(** [z.number().min(n)] parsed at key [key]. *)
Definition z_number_min `{ZodBuiltins} (n : Z) (msg : option string)
           (key : string) (v : Z) : list ZodIssue :=
  if (n <=? v)%Z then []
  else [ {| path := [key];
            message := match msg with
                       | Some m => m
                       | None => tooSmallMessage n
                       end |} ].

(** [schema.optional()]: [undefined] passes, a present value is handed
    to the inner schema. *)
Definition optional {A : Type} (inner : string -> A -> list ZodIssue)
           (key : string) (v : option A) : list ZodIssue :=
  match v with
  | Some x => inner key x
  | None => []
  end.

(** A required key of an object schema: [undefined] is an issue at the
    key. *)
Definition required `{ZodBuiltins} {A : Type} (inner : string -> A -> list ZodIssue)
           (key : string) (v : option A) : list ZodIssue :=
  match v with
  | Some x => inner key x
  | None => [ {| path := [key]; message := requiredMessage |} ]
  end.

(** Regular expressions of the schemas, as tests on strings. *)
Definition isUpper (c : ascii) : bool :=
  ((65 <=? nat_of_ascii c) && (nat_of_ascii c <=? 90))%nat.

Definition isDigit (c : ascii) : bool :=
  ((48 <=? nat_of_ascii c) && (nat_of_ascii c <=? 57))%nat.

Fixpoint existsChar (p : ascii -> bool) (s : string) : bool :=
  match s with
  | EmptyString => false
  | String c s' => p c || existsChar p s'
  end.

Fixpoint allChars (p : ascii -> bool) (s : string) : bool :=
  match s with
  | EmptyString => true
  | String c s' => p c && allChars p s'
  end.

(** [/[A-Z]/] *)
Definition re_uppercase (s : string) : bool := existsChar isUpper s.

(** [/[0-9]/] *)
Definition re_number (s : string) : bool := existsChar isDigit s.

(** [/^\+?[0-9]{10,14}$/] *)
Definition re_phone (s : string) : bool :=
  let digits := match s with
                | String "+"%char rest => rest
                | _ => s
                end in
  allChars isDigit digits
  && (10 <=? String.length digits)%nat
  && (String.length digits <=? 14)%nat.

End Zod.

(** ** schemas/onboarding.schema.ts *)

Module Schema.
Import Zod.

Inductive AccountType := personal | business.

(** [OnboardingData = z.infer<typeof onboardingSchema>] *)
Record OnboardingData := {
  email : string;
  password : string;
  confirmPassword : string;
  firstName : string;
  lastName : string;
  phone : string;
  accountType : AccountType;
  companyName : option string;
  teamSize : option Z;
  role : option string
}.

Definition AccountType_eqb (a b : AccountType) : bool :=
  match a, b with
  | personal, personal | business, business => true
  | _, _ => false
  end.

Section WithZod.
Context `{ZodBuiltins}.

(** The field schemas of [onboardingSchema.shape]. *)
Definition shape_email : string -> string -> list ZodIssue :=
  z_string [min 1 "Email is required"; Zod.email "Invalid email format"].

Definition shape_password : string -> string -> list ZodIssue :=
  z_string [min 8 "Password must be at least 8 characters";
            regex re_uppercase "Password must contain at least one uppercase letter";
            regex re_number "Password must contain at least one number"].

Definition shape_confirmPassword : string -> string -> list ZodIssue :=
  z_string [min 1 "Please confirm your password"].

Definition shape_firstName : string -> string -> list ZodIssue :=
  z_string [min 1 "First name is required"].

Definition shape_lastName : string -> string -> list ZodIssue :=
  z_string [min 1 "Last name is required"].

Definition shape_phone : string -> string -> list ZodIssue :=
  z_string [min 1 "Phone number is required";
            regex re_phone "Invalid phone number format"].

Definition shape_companyName : string -> option string -> list ZodIssue :=
  optional (z_string []).

Definition shape_teamSize : string -> option Z -> list ZodIssue :=
  optional (z_number_min 1 None).

Definition shape_role : string -> option string -> list ZodIssue :=
  optional (z_string []).

(** The [z.object({...})] under [onboardingSchema]: keys are parsed in the
    order of the shape and their issues concatenated.  [accountType] is a
    [z.enum] and a typed record always holds one of its members. *)
Definition onboardingObject (data : OnboardingData) : list ZodIssue :=
  shape_email "email" (email data)
  ++ shape_password "password" (password data)
  ++ shape_confirmPassword "confirmPassword" (confirmPassword data)
  ++ shape_firstName "firstName" (firstName data)
  ++ shape_lastName "lastName" (lastName data)
  ++ shape_phone "phone" (phone data)
  ++ shape_companyName "companyName" (companyName data)
  ++ shape_teamSize "teamSize" (teamSize data)
  ++ shape_role "role" (role data).

(** The callback of [.superRefine]; [ctx.addIssue] appends. *)
Definition onboardingRefinement (data : OnboardingData) : list ZodIssue :=
  (if negb (String.eqb (password data) (confirmPassword data))
   then [ {| path := ["confirmPassword"]; message := "Passwords do not match" |} ]
   else [])
  ++
  (if AccountType_eqb (accountType data) business
   then
     (if JS.falsy_string (companyName data)
         || match companyName data with
            | Some s => (String.length s =? 0)%nat
            | None => false
            end
      then [ {| path := ["companyName"];
                message := "Company name is required for business accounts" |} ]
      else [])
     ++
     (if JS.falsy_number (teamSize data)
         || match teamSize data with
            | Some n => (n <? 1)%Z
            | None => false
            end
      then [ {| path := ["teamSize"];
                message := "Team size is required for business accounts" |} ]
      else [])
   else []).

(** Issues of [onboardingSchema], in evaluation order.  On a typed record
    no key fails with a type error, so the object parse is never aborted
    and the refinement always runs after it. *)
Definition onboardingIssues (data : OnboardingData) : list ZodIssue :=
  onboardingObject data ++ onboardingRefinement data.

(** [onboardingSchema.safeParse(data)] *)
Definition onboardingSchema_safeParse (data : OnboardingData)
  : SafeParseReturn OnboardingData :=
  match onboardingIssues data with
  | [] => ParseSuccess data
  | issues => ParseError issues
  end.

(** The input of the company step: the three keys of [companyStepSchema],
    each possibly [undefined]. *)
Record CompanyStepInput := {
  in_companyName : option string;
  in_teamSize : option Z;
  in_role : option string
}.

(** [companyStepSchema]: declared on its own, every key required. *)
Definition companyStepIssues (v : CompanyStepInput) : list ZodIssue :=
  required (z_string [min 1 "Company name is required"])
           "companyName" (in_companyName v)
  ++ required (z_number_min 1 (Some "Team size must be at least 1"))
              "teamSize" (in_teamSize v)
  ++ required (z_string [min 1 "Your role is required"])
              "role" (in_role v).

Definition companyStepSchema_accepts (v : CompanyStepInput) : bool :=
  match companyStepIssues v with
  | [] => true
  | _ => false
  end.

(** The constraints of [onboardingSchema] that mention only
    [companyName], [teamSize] and [role]: the three field schemas of the
    shape.  Both rules of the refinement read [accountType] as well. *)
Definition domainCompanyIssues (v : CompanyStepInput) : list ZodIssue :=
  shape_companyName "companyName" (in_companyName v)
  ++ shape_teamSize "teamSize" (in_teamSize v)
  ++ shape_role "role" (in_role v).

Definition domainCompany_accepts (v : CompanyStepInput) : bool :=
  match domainCompanyIssues v with
  | [] => true
  | _ => false
  end.

(** The three keys of a complete record that the company step holds. *)
Definition pickCompany (d : OnboardingData) : CompanyStepInput :=
  {| in_companyName := companyName d;
     in_teamSize := teamSize d;
     in_role := role d |}.

End WithZod.

Definition defaultOnboardingValues : OnboardingData := {|
  email := EmptyString;
  password := EmptyString;
  confirmPassword := EmptyString;
  firstName := EmptyString;
  lastName := EmptyString;
  phone := EmptyString;
  accountType := personal;
  companyName := Some EmptyString;
  teamSize := None;
  role := Some EmptyString
|}.

End Schema.

(** ** schemas/onboarding.schema.ts: the step schemas built from the shape *)

Module AccountStepSchema.
Import Zod.

(** [AccountStepData = z.infer<typeof accountStepSchema>] *)
Record AccountStepData := {
  email : string;
  password : string;
  confirmPassword : string
}.

(** The three keys of a complete record that the account step holds. *)
Definition pick (d : Schema.OnboardingData) : AccountStepData :=
  {| email := Schema.email d;
     password := Schema.password d;
     confirmPassword := Schema.confirmPassword d |}.

Section WithZod.
Context `{ZodBuiltins}.

(** The [z.object] of [accountStepSchema], its keys taken from
    [onboardingSchema.shape]. *)
Definition accountStepObject (data : AccountStepData) : list ZodIssue :=
  Schema.shape_email "email" (email data)
  ++ Schema.shape_password "password" (password data)
  ++ Schema.shape_confirmPassword "confirmPassword" (confirmPassword data).

(** [.refine(data => data.password === data.confirmPassword, ...)] *)
Definition accountStepRefinement (data : AccountStepData) : list ZodIssue :=
  if String.eqb (password data) (confirmPassword data)
  then []
  else [ {| path := ["confirmPassword"]; message := "Passwords do not match" |} ].

Definition accountStepIssues (data : AccountStepData) : list ZodIssue :=
  accountStepObject data ++ accountStepRefinement data.

Definition accountStepSchema_accepts (data : AccountStepData) : bool :=
  match accountStepIssues data with
  | [] => true
  | _ => false
  end.

End WithZod.

End AccountStepSchema.

Module ProfileStepSchema.
Import Zod.

(** [ProfileStepData = z.infer<typeof profileStepSchema>] *)
Record ProfileStepData := {
  firstName : string;
  lastName : string;
  phone : string
}.

Definition pick (d : Schema.OnboardingData) : ProfileStepData :=
  {| firstName := Schema.firstName d;
     lastName := Schema.lastName d;
     phone := Schema.phone d |}.

Section WithZod.
Context `{ZodBuiltins}.

Definition profileStepIssues (data : ProfileStepData) : list ZodIssue :=
  Schema.shape_firstName "firstName" (firstName data)
  ++ Schema.shape_lastName "lastName" (lastName data)
  ++ Schema.shape_phone "phone" (phone data).

Definition profileStepSchema_accepts (data : ProfileStepData) : bool :=
  match profileStepIssues data with
  | [] => true
  | _ => false
  end.

End WithZod.

End ProfileStepSchema.

(** ** mock/api.ts *)

Module Api.

(** [ApiResponse<{ id: string }>] *)
Record ApiResponse := {
  success : bool;
  data : option string;
  error : option string
}.

(** What awaiting the backend call yields: a response, or a rejected
    promise (transport failure). *)
Inductive Reply :=
| Resolved (response : ApiResponse)
| Rejected.

(** [submitOnboarding(data)].  [serverError] is the outcome of
    [Math.random() < 0.1], [now] the rendering of [Date.now()], and
    [emailOf] reads the [email] key when the payload has one. *)
Definition submitOnboarding {T : Type} (emailOf : T -> option string)
           (serverError : bool) (now : string) (payload : T) : ApiResponse :=
  if serverError
  then {| success := false; data := None;
          error := Some "Server error. Please try again." |}
  else
    match emailOf payload with
    | Some e =>
        if String.eqb e "taken@example.com"
        then {| success := false; data := None;
                error := Some "This email is already registered." |}
        else {| success := true; data := Some ("user_" ++ now); error := None |}
    | None => {| success := true; data := Some ("user_" ++ now); error := None |}
    end.

End Api.

(** ** mock/api.ts: drafts *)

Module DraftApi.

(** [ApiResponse<T>] *)
Record ApiResponse (T : Type) := {
  success : bool;
  data : option T;
  error : option string
}.
Arguments success {T} _.
Arguments data {T} _.
Arguments error {T} _.

Section Drafts.
Context {D : Type}.

(** Whether a stored draft is truthy ([if (drafts[step])]). *)
Variable truthy : D -> bool.

(** [JSON.parse(localStorage.getItem("onboarding-drafts") || "{}")]: the
    item holds an object keyed by step; the stored text stands for the
    object it serialises. *)
Definition readDrafts (store : gmap string (gmap string D)) : gmap string D :=
  default ∅ (store !! "onboarding-drafts").

(** [saveDraft(step, data)]: the reply ([saved: true]) and the storage
    after the call. *)
Definition saveDraft (step : string) (d : D) (store : gmap string (gmap string D))
  : ApiResponse bool * gmap string (gmap string D) :=
  let drafts := <[step := d]> (readDrafts store) in
  ({| success := true; data := Some true; error := None |},
   <["onboarding-drafts" := drafts]> store).

(** [loadDraft(step)] *)
Definition loadDraft (step : string) (store : gmap string (gmap string D))
  : ApiResponse D :=
  match readDrafts store !! step with
  | Some d =>
      if truthy d
      then {| success := true; data := Some d; error := None |}
      else {| success := false; data := None; error := Some "No draft found" |}
  | None => {| success := false; data := None; error := Some "No draft found" |}
  end.

End Drafts.

(** [clearDrafts()]: two [removeItem] calls, whatever the items hold. *)
Definition clearDrafts {V : Type} (store : gmap string V) : gmap string V :=
  delete "onboarding-form-draft" (delete "onboarding-drafts" store).

End DraftApi.

(** ** The form controller *)

(** [useForm], [trigger] and the resolver adapter are package code
    (react-hook-form, @hookform/resolvers); the repository configures them
    with [mode: "onTouched"] and a zod schema.  The controller below
    follows the specification's Field-Scoped Validator and Form State
    Store. *)
Module Form.
Import Zod.

(** The store of one form: the collected values, the displayed error of
    each field, and the fields that have lost focus. *)
Record FormState (Values : Type) := {
  values : Values;
  errors : gmap string string;
  touchedFields : gset string
}.
Arguments values {Values} _.
Arguments errors {Values} _.
Arguments touchedFields {Values} _.

(** Modelled from the spec: the resolver adapter ([zodResolver]) is not
    part of the sources.  It turns the ordered issues of a parse into one
    ValidationResult per field path; the first issue of a path gives the
    message of the field. *)
Definition zodResolver (issues : list ZodIssue) : gmap string string :=
  foldr (fun i errs => <[String.concat "." (path i) := message i]> errs)
        ∅ issues.

Section UseForm.
Context {Values Value : Type}.

(** The validator the form was created with, and the write of one field
    into the record of values. *)
Variable resolver : Values -> gmap string string.
Variable setValue : string -> Value -> Values -> Values.

(** Modelled from the spec: re-evaluation of one field (react-hook-form
    internals are not part of the sources).  The whole record is handed
    to the validator and only the displayed error of [name] is replaced. *)
Definition validateField (name : string) (fs : FormState Values)
  : FormState Values :=
  {| values := values fs;
     errors := match resolver (values fs) !! name with
               | Some msg => <[name := msg]> (errors fs)
               | None => delete name (errors fs)
               end;
     touchedFields := touchedFields fs |}.

Definition touch (name : string) (fs : FormState Values) : FormState Values :=
  {| values := values fs;
     errors := errors fs;
     touchedFields := {[name]} ∪ touchedFields fs |}.

(** Modelled from the spec: [requestValidation(fieldPaths)], the
    [trigger(names)] of react-hook-form, which is not part of the sources.
    It answers whether every named field passes, marks the named fields
    touched and refreshes their displayed errors. *)
Definition trigger (names : list string) (fs : FormState Values)
  : bool * FormState Values :=
  (forallb (fun name => bool_decide (resolver (values fs) !! name = None)) names,
   foldl (fun s name => validateField name (touch name s)) fs names).

(** Modelled from the spec: the [onTouchedThenChange] timing policy
    ([mode: "onTouched"]; react-hook-form is not part of the sources).
    A loss of focus marks the field touched and validates it. *)
Definition onBlur (name : string) (fs : FormState Values) : FormState Values :=
  validateField name (touch name fs).

(** Modelled from the spec: under [onTouchedThenChange] a change of value
    is stored, and re-validates the field only once it has been touched. *)
Definition onChange (name : string) (v : Value) (fs : FormState Values)
  : FormState Values :=
  let fs' := {| values := setValue name v (values fs);
                errors := errors fs;
                touchedFields := touchedFields fs |} in
  if bool_decide (name ∈ touchedFields fs)
  then validateField name fs'
  else fs'.

(** The interaction events of a field under the timing policy. *)
Inductive FieldEvent :=
| Change (name : string) (v : Value)
| Blur (name : string).

Definition fieldEvent (e : FieldEvent) (fs : FormState Values)
  : FormState Values :=
  match e with
  | Change name v => onChange name v fs
  | Blur name => onBlur name fs
  end.

Definition fieldEvents (es : list FieldEvent) (fs : FormState Values)
  : FormState Values :=
  foldl (fun s e => fieldEvent e s) fs es.

End UseForm.

(** Modelled from the spec: [useForm({ defaultValues })] and
    [reset(defaultValues)] give a store with the defaults, no displayed
    error and no touched field. *)
Definition useForm {Values : Type} (defaultValues : Values) : FormState Values :=
  {| values := defaultValues; errors := ∅; touchedFields := ∅ |}.

End Form.

(** ** Handlers as state computations *)

Module Hook.

Definition M (S A : Type) : Type := S -> A * S.

Definition ret {S A : Type} (a : A) : M S A := fun s => (a, s).

Definition bind {S A B : Type} (m : M S A) (k : A -> M S B) : M S B :=
  fun s => let (a, s') := m s in k a s'.

Definition gets {S A : Type} (f : S -> A) : M S A := fun s => (f s, s).

Definition modify {S : Type} (f : S -> S) : M S unit := fun s => (tt, f s).

Definition exec {S A : Type} (m : M S A) (s : S) : S := snd (m s).

Definition eval {S A : Type} (m : M S A) (s : S) : A := fst (m s).

End Hook.

Declare Scope hook_scope.
Delimit Scope hook_scope with hook.
Notation "x <- m ;; k" := (Hook.bind m (fun x => k))
  (at level 100, m at next level, right associativity) : hook_scope.
Notation "m ;; k" := (Hook.bind m (fun _ => k))
  (at level 100, right associativity) : hook_scope.

(** ** examples/multi-step-single-form/MultiStepSingleForm.tsx *)

Module MultiStepSingleForm.
Import Zod Schema.
#[local] Open Scope hook_scope.

Definition STORAGE_KEY : string := "multi-step-form-draft".

(** [StepConfig]; the [component] of a step is an opaque rendering unit
    and is left out. *)
Record StepConfig := { label : string; fields : list string }.

(** Whether a step owns a field: [step.fields.includes(path)]. *)
Definition owns (firstErrorPath : option string) (step : StepConfig) : bool :=
  JS.includes (fields step) firstErrorPath.

Record SubmitResult := { success : bool; message : string }.

(** What a control writes into a field. *)
Inductive FieldValue :=
| VString (s : string)
| VNumber (n : Z)
| VUndefined.

Definition asString (v : FieldValue) (old : string) : string :=
  match v with VString s => s | _ => old end.

Definition asOptString (v : FieldValue) (old : option string) : option string :=
  match v with VString s => Some s | VUndefined => None | VNumber _ => old end.

Definition asOptNumber (v : FieldValue) (old : option Z) : option Z :=
  match v with VNumber n => Some n | VUndefined => None | VString _ => old end.

Definition asAccountType (v : FieldValue) (old : AccountType) : AccountType :=
  match v with
  | VString s => if String.eqb s "personal" then personal
                 else if String.eqb s "business" then business
                 else old
  | _ => old
  end.

(** The write of one named field into the record.  The field types rule
    out a value of another type; such a write leaves the field as it is. *)
Definition setValue (name : string) (v : FieldValue) (d : OnboardingData)
  : OnboardingData :=
  let at_ {A : Type} (key : string) (new old : A) : A :=
    if String.eqb name key then new else old in
  {| email := at_ "email" (asString v (email d)) (email d);
     password := at_ "password" (asString v (password d)) (password d);
     confirmPassword :=
       at_ "confirmPassword" (asString v (confirmPassword d)) (confirmPassword d);
     firstName := at_ "firstName" (asString v (firstName d)) (firstName d);
     lastName := at_ "lastName" (asString v (lastName d)) (lastName d);
     phone := at_ "phone" (asString v (phone d)) (phone d);
     accountType :=
       at_ "accountType" (asAccountType v (accountType d)) (accountType d);
     companyName :=
       at_ "companyName" (asOptString v (companyName d)) (companyName d);
     teamSize := at_ "teamSize" (asOptNumber v (teamSize d)) (teamSize d);
     role := at_ "role" (asOptString v (role d)) (role d) |}.

(** The state of the component: its [useState] cells, the form store, the
    browser's [localStorage], and the log of calls made to the backend
    (oldest first). *)
Record Component := {
  currentStep : Z;
  isSubmitting : bool;
  submitResult : option SubmitResult;
  form : Form.FormState OnboardingData;
  localStorage : gmap string OnboardingData;
  requests : list OnboardingData
}.

Definition setCurrentStep (f : Z -> Z) : Hook.M Component unit :=
  Hook.modify (fun c =>
    {| currentStep := f (currentStep c);
       isSubmitting := isSubmitting c;
       submitResult := submitResult c;
       form := form c;
       localStorage := localStorage c;
       requests := requests c |}).

Definition setIsSubmitting (b : bool) : Hook.M Component unit :=
  Hook.modify (fun c =>
    {| currentStep := currentStep c;
       isSubmitting := b;
       submitResult := submitResult c;
       form := form c;
       localStorage := localStorage c;
       requests := requests c |}).

Definition setSubmitResult (r : option SubmitResult) : Hook.M Component unit :=
  Hook.modify (fun c =>
    {| currentStep := currentStep c;
       isSubmitting := isSubmitting c;
       submitResult := r;
       form := form c;
       localStorage := localStorage c;
       requests := requests c |}).

Definition setForm (f : Form.FormState OnboardingData) : Hook.M Component unit :=
  Hook.modify (fun c =>
    {| currentStep := currentStep c;
       isSubmitting := isSubmitting c;
       submitResult := submitResult c;
       form := f;
       localStorage := localStorage c;
       requests := requests c |}).

Definition setLocalStorage (f : gmap string OnboardingData -> gmap string OnboardingData)
  : Hook.M Component unit :=
  Hook.modify (fun c =>
    {| currentStep := currentStep c;
       isSubmitting := isSubmitting c;
       submitResult := submitResult c;
       form := form c;
       localStorage := f (localStorage c);
       requests := requests c |}).

(** [localStorage.setItem(key, JSON.stringify(data))] and
    [localStorage.removeItem(key)]; the stored text stands for the record
    it serialises. *)
Definition localStorage_setItem (key : string) (d : OnboardingData)
  : Hook.M Component unit :=
  setLocalStorage (fun store => <[key := d]> store).

Definition localStorage_removeItem (key : string) : Hook.M Component unit :=
  setLocalStorage (fun store => delete key store).

(** Dynamic steps based on account type. *)
Definition steps (accountType : AccountType) : list StepConfig :=
  let baseSteps :=
    [ {| label := "Account"; fields := ["email"; "password"; "confirmPassword"] |};
      {| label := "Profile"; fields := ["firstName"; "lastName"; "phone"] |};
      {| label := "Account Type"; fields := ["accountType"] |} ] in
  if AccountType_eqb accountType business
  then baseSteps ++
       [ {| label := "Company"; fields := ["companyName"; "teamSize"; "role"] |} ]
  else baseSteps.

(** The steps of the current render: [watch("accountType")] reads the
    form store. *)
Definition currentSteps (c : Component) : list StepConfig :=
  steps (accountType (Form.values (form c))).

(** The index points at a step of the current sequence. *)
Definition inBounds (c : Component) : Prop :=
  (0 <= currentStep c <= Z.of_nat (length (currentSteps c)) - 1)%Z.

Section WithBackend.
Context `{ZodBuiltins}.

(** The submission endpoint: what awaiting [submitOnboarding(data)]
    yields for each payload. *)
Variable backend : OnboardingData -> Api.Reply.

(** [zodResolver(onboardingSchema)] *)
Definition resolver (d : OnboardingData) : gmap string string :=
  Form.zodResolver (onboardingIssues d).

(** Saved draft, merged over the defaults, or the defaults. *)
Definition savedValues (store : gmap string OnboardingData) : OnboardingData :=
  match store !! STORAGE_KEY with
  | Some saved => saved
  | None => defaultOnboardingValues
  end.

Definition mount (store : gmap string OnboardingData) : Component :=
  {| currentStep := 0;
     isSubmitting := false;
     submitResult := None;
     form := Form.useForm (savedValues store);
     localStorage := store;
     requests := [] |}.

(** A change of a field's value, followed by the [watch] subscription
    that saves the draft. *)
Definition changeField (name : string) (v : FieldValue) : Hook.M Component unit :=
  f <- Hook.gets form ;;
  setForm (Form.onChange resolver setValue name v f) ;;
  f' <- Hook.gets form ;;
  localStorage_setItem STORAGE_KEY (Form.values f').

Definition blurField (name : string) : Hook.M Component unit :=
  f <- Hook.gets form ;;
  setForm (Form.onBlur resolver name f).

Definition validateCurrentStep : Hook.M Component bool :=
  c <- Hook.gets (fun c => c) ;;
  match JS.nth_Z (currentSteps c) (currentStep c) with
  | None => Hook.ret false
  | Some currentStepConfig =>
      let (isValid, f') := Form.trigger resolver (fields currentStepConfig) (form c) in
      setForm f' ;;
      Hook.ret isValid
  end.

Definition handleNext : Hook.M Component unit :=
  stepCount <- Hook.gets (fun c => Z.of_nat (length (currentSteps c))) ;;
  isValid <- validateCurrentStep ;;
  if isValid
  then setCurrentStep (fun prev => Z.min (prev + 1) (stepCount - 1))
  else Hook.ret tt.

Definition handleBack : Hook.M Component unit :=
  setCurrentStep (fun prev => Z.max (prev - 1) 0).

(** [await submitOnboarding(payload)]: the call is logged and the reply
    of the endpoint returned. *)
Definition submitOnboarding (payload : OnboardingData) : Hook.M Component Api.Reply :=
  fun c =>
    (backend payload,
     {| currentStep := currentStep c;
        isSubmitting := isSubmitting c;
        submitResult := submitResult c;
        form := form c;
        localStorage := localStorage c;
        requests := requests c ++ [payload] |}).

(** The submit handler.  The Complete button hands it the snapshot of
    the form store (through the controller's [handleSubmit]); here it is
    a function of any record of the data type. *)
Definition onSubmit (data : OnboardingData) : Hook.M Component unit :=
  match onboardingSchema_safeParse data with
  | ParseError issues =>
      let firstErrorPath := Zod.firstErrorPath issues in
      cur <- Hook.gets currentSteps ;;
      let stepWithError :=
        JS.findIndex (fun step => JS.includes (fields step) firstErrorPath) cur in
      if negb (stepWithError =? -1)%Z
      then setCurrentStep (fun _ => stepWithError)
      else Hook.ret tt
  | ParseSuccess payload =>
      setIsSubmitting true ;;
      setSubmitResult None ;;
      reply <- submitOnboarding payload ;;
      match reply with
      | Api.Resolved response =>
          if Api.success response
          then
            localStorage_removeItem STORAGE_KEY ;;
            setSubmitResult (Some
              {| success := true;
                 message := "Account created successfully! ID: "
                            ++ default "undefined" (Api.data response) |})
          else
            setSubmitResult (Some
              {| success := false;
                 message := JS.or_else (Api.error response) "Something went wrong" |})
      | Api.Rejected =>
          setSubmitResult (Some
            {| success := false;
               message := "Network error. Please try again." |})
      end ;;
      setIsSubmitting false
  end.

Definition handleReset : Hook.M Component unit :=
  localStorage_removeItem STORAGE_KEY ;;
  setForm (Form.useForm defaultOnboardingValues) ;;
  setCurrentStep (fun _ => 0%Z) ;;
  setSubmitResult None.

End WithBackend.

End MultiStepSingleForm.

(** ** examples/conditional-steps/ConditionalStepsForm.tsx *)

Module ConditionalStepsForm.
Import Zod.
#[local] Open Scope hook_scope.

Inductive AttendanceType := in_person | virtual | hybrid.
Inductive TshirtSize := size_xs | size_s | size_m | size_l | size_xl | size_xxl.
Inductive Platform := zoom | meet | teams.

(** [EventRegistrationData = z.infer<typeof eventRegistrationSchema>] *)
Record EventRegistrationData := {
  name : string;
  email : string;
  attendanceType : AttendanceType;
  dietaryRestrictions : option string;
  tshirtSize : option TshirtSize;
  timezone : option string;
  platformPreference : option Platform;
  howDidYouHear : string
}.

Definition AttendanceType_eqb (a b : AttendanceType) : bool :=
  match a, b with
  | in_person, in_person | virtual, virtual | hybrid, hybrid => true
  | _, _ => false
  end.

(** [!v] for an optional member of a string-literal union (no member is
    the empty string). *)
Definition falsy_enum {A : Type} (v : option A) : bool :=
  match v with Some _ => false | None => true end.

Record StepConfig := { label : string; fields : list string }.

Record SubmitResult := { success : bool; message : string }.

Inductive FieldValue :=
| VString (s : string)
| VUndefined.

Definition asString (v : FieldValue) (old : string) : string :=
  match v with VString s => s | VUndefined => old end.

Definition asOptString (v : FieldValue) (old : option string) : option string :=
  match v with VString s => Some s | VUndefined => None end.

Definition asAttendanceType (v : FieldValue) (old : AttendanceType) : AttendanceType :=
  match v with
  | VString s => if String.eqb s "in-person" then in_person
                 else if String.eqb s "virtual" then virtual
                 else if String.eqb s "hybrid" then hybrid
                 else old
  | VUndefined => old
  end.

Definition asOptTshirtSize (v : FieldValue) (old : option TshirtSize)
  : option TshirtSize :=
  match v with
  | VString s => if String.eqb s "xs" then Some size_xs
                 else if String.eqb s "s" then Some size_s
                 else if String.eqb s "m" then Some size_m
                 else if String.eqb s "l" then Some size_l
                 else if String.eqb s "xl" then Some size_xl
                 else if String.eqb s "xxl" then Some size_xxl
                 else old
  | VUndefined => None
  end.

Definition asOptPlatform (v : FieldValue) (old : option Platform) : option Platform :=
  match v with
  | VString s => if String.eqb s "zoom" then Some zoom
                 else if String.eqb s "meet" then Some meet
                 else if String.eqb s "teams" then Some teams
                 else old
  | VUndefined => None
  end.

(** The write of one named field into the record; a value outside the
    field's type leaves the field as it is. *)
Definition setValue (key : string) (v : FieldValue) (d : EventRegistrationData)
  : EventRegistrationData :=
  let at_ {A : Type} (k : string) (new old : A) : A :=
    if String.eqb key k then new else old in
  {| name := at_ "name" (asString v (name d)) (name d);
     email := at_ "email" (asString v (email d)) (email d);
     attendanceType :=
       at_ "attendanceType" (asAttendanceType v (attendanceType d)) (attendanceType d);
     dietaryRestrictions :=
       at_ "dietaryRestrictions" (asOptString v (dietaryRestrictions d))
           (dietaryRestrictions d);
     tshirtSize := at_ "tshirtSize" (asOptTshirtSize v (tshirtSize d)) (tshirtSize d);
     timezone := at_ "timezone" (asOptString v (timezone d)) (timezone d);
     platformPreference :=
       at_ "platformPreference" (asOptPlatform v (platformPreference d))
           (platformPreference d);
     howDidYouHear := at_ "howDidYouHear" (asString v (howDidYouHear d)) (howDidYouHear d) |}.

Definition defaultValues : EventRegistrationData := {|
  name := EmptyString;
  email := EmptyString;
  attendanceType := in_person;
  dietaryRestrictions := Some EmptyString;
  tshirtSize := None;
  timezone := Some EmptyString;
  platformPreference := None;
  howDidYouHear := EmptyString
|}.

Record Component := {
  currentStep : Z;
  isSubmitting : bool;
  submitResult : option SubmitResult;
  form : Form.FormState EventRegistrationData;
  requests : list EventRegistrationData
}.

Definition setCurrentStep (f : Z -> Z) : Hook.M Component unit :=
  Hook.modify (fun c =>
    {| currentStep := f (currentStep c);
       isSubmitting := isSubmitting c;
       submitResult := submitResult c;
       form := form c;
       requests := requests c |}).

Definition setIsSubmitting (b : bool) : Hook.M Component unit :=
  Hook.modify (fun c =>
    {| currentStep := currentStep c;
       isSubmitting := b;
       submitResult := submitResult c;
       form := form c;
       requests := requests c |}).

Definition setSubmitResult (r : option SubmitResult) : Hook.M Component unit :=
  Hook.modify (fun c =>
    {| currentStep := currentStep c;
       isSubmitting := isSubmitting c;
       submitResult := r;
       form := form c;
       requests := requests c |}).

Definition setForm (f : Form.FormState EventRegistrationData)
  : Hook.M Component unit :=
  Hook.modify (fun c =>
    {| currentStep := currentStep c;
       isSubmitting := isSubmitting c;
       submitResult := submitResult c;
       form := f;
       requests := requests c |}).

(** Build dynamic steps based on attendance type. *)
Definition steps (attendanceType : AttendanceType) : list StepConfig :=
  let baseSteps :=
    [ {| label := "Basic Info"; fields := ["name"; "email"] |};
      {| label := "Attendance"; fields := ["attendanceType"] |} ] in
  let inPerson :=
    {| label := "In-Person"; fields := ["dietaryRestrictions"; "tshirtSize"] |} in
  let virtualStep :=
    {| label := "Virtual"; fields := ["timezone"; "platformPreference"] |} in
  let conditional :=
    (if AttendanceType_eqb attendanceType in_person then baseSteps ++ [inPerson]
     else if AttendanceType_eqb attendanceType virtual then baseSteps ++ [virtualStep]
     else if AttendanceType_eqb attendanceType hybrid
          then (baseSteps ++ [inPerson]) ++ [virtualStep]
     else baseSteps)%list in
  (conditional ++ [ {| label := "Finish"; fields := ["howDidYouHear"] |} ])%list.

Definition currentSteps (c : Component) : list StepConfig :=
  steps (attendanceType (Form.values (form c))).

(** Adjust current step if it is now out of bounds. *)
Definition safeCurrentStep (c : Component) : Z :=
  Z.min (currentStep c) (Z.of_nat (length (currentSteps c)) - 1).

(** The part of a render that writes state: the index is set only when
    the clamped value differs from it. *)
Definition render : Hook.M Component unit :=
  c <- Hook.gets (fun c => c) ;;
  if negb (safeCurrentStep c =? currentStep c)%Z
  then setCurrentStep (fun _ => safeCurrentStep c)
  else Hook.ret tt.

(** The index points at a step of the current sequence. *)
Definition inBounds (c : Component) : Prop :=
  (0 <= currentStep c <= Z.of_nat (length (currentSteps c)) - 1)%Z.

Section WithBackend.
Context `{ZodBuiltins}.
Variable backend : EventRegistrationData -> Api.Reply.

Definition eventRegistrationObject (d : EventRegistrationData) : list ZodIssue :=
  z_string [min 1 "Name is required"] "name" (name d)
  ++ z_string [min 1 "Email is required"; Zod.email "Invalid email"] "email" (email d)
  ++ optional (z_string []) "dietaryRestrictions" (dietaryRestrictions d)
  ++ optional (z_string []) "timezone" (timezone d)
  ++ z_string [min 1 "Please tell us how you heard about us"]
              "howDidYouHear" (howDidYouHear d).

Definition eventRegistrationRefinement (d : EventRegistrationData) : list ZodIssue :=
  (if AttendanceType_eqb (attendanceType d) in_person
      || AttendanceType_eqb (attendanceType d) hybrid
   then
     (if JS.falsy_string (dietaryRestrictions d)
      then [ {| Zod.path := ["dietaryRestrictions"];
                Zod.message := "Please specify dietary restrictions (or 'None')" |} ]
      else [])
     ++
     (if falsy_enum (tshirtSize d)
      then [ {| Zod.path := ["tshirtSize"];
                Zod.message := "T-shirt size is required for in-person attendees" |} ]
      else [])
   else [])
  ++
  (if AttendanceType_eqb (attendanceType d) virtual
      || AttendanceType_eqb (attendanceType d) hybrid
   then
     (if JS.falsy_string (timezone d)
      then [ {| Zod.path := ["timezone"];
                Zod.message := "Timezone is required for virtual attendance" |} ]
      else [])
     ++
     (if falsy_enum (platformPreference d)
      then [ {| Zod.path := ["platformPreference"];
                Zod.message := "Please select your preferred platform" |} ]
      else [])
   else []).

Definition eventRegistrationIssues (d : EventRegistrationData) : list ZodIssue :=
  eventRegistrationObject d ++ eventRegistrationRefinement d.

(** [zodResolver(eventRegistrationSchema)] *)
Definition resolver (d : EventRegistrationData) : gmap string string :=
  Form.zodResolver (eventRegistrationIssues d).

Definition mount : Component :=
  {| currentStep := 0;
     isSubmitting := false;
     submitResult := None;
     form := Form.useForm defaultValues;
     requests := [] |}.

Definition changeField (key : string) (v : FieldValue) : Hook.M Component unit :=
  f <- Hook.gets form ;;
  setForm (Form.onChange resolver setValue key v f).

Definition blurField (key : string) : Hook.M Component unit :=
  f <- Hook.gets form ;;
  setForm (Form.onBlur resolver key f).

Definition validateCurrentStep : Hook.M Component bool :=
  c <- Hook.gets (fun c => c) ;;
  match JS.nth_Z (currentSteps c) (currentStep c) with
  | None => Hook.ret false
  | Some currentStepConfig =>
      let (isValid, f') := Form.trigger resolver (fields currentStepConfig) (form c) in
      setForm f' ;;
      Hook.ret isValid
  end.

Definition handleNext : Hook.M Component unit :=
  stepCount <- Hook.gets (fun c => Z.of_nat (length (currentSteps c))) ;;
  isValid <- validateCurrentStep ;;
  if isValid
  then setCurrentStep (fun prev => Z.min (prev + 1) (stepCount - 1))
  else Hook.ret tt.

Definition handleBack : Hook.M Component unit :=
  setCurrentStep (fun prev => Z.max (prev - 1) 0).

Definition submitOnboarding (payload : EventRegistrationData)
  : Hook.M Component Api.Reply :=
  fun c =>
    (backend payload,
     {| currentStep := currentStep c;
        isSubmitting := isSubmitting c;
        submitResult := submitResult c;
        form := form c;
        requests := requests c ++ [payload] |}).

Definition onSubmit (data : EventRegistrationData) : Hook.M Component unit :=
  setIsSubmitting true ;;
  setSubmitResult None ;;
  reply <- submitOnboarding data ;;
  match reply with
  | Api.Resolved response =>
      if Api.success response
      then
        setSubmitResult (Some
          {| success := true;
             message := "Registration complete! Confirmation ID: "
                        ++ default "undefined" (Api.data response) |})
      else
        setSubmitResult (Some
          {| success := false;
             message := JS.or_else (Api.error response) "Something went wrong" |})
  | Api.Rejected =>
      setSubmitResult (Some
        {| success := false;
           message := "Network error. Please try again." |})
  end ;;
  setIsSubmitting false.

Definition handleReset : Hook.M Component unit :=
  setForm (Form.useForm defaultValues) ;;
  setCurrentStep (fun _ => 0%Z) ;;
  setSubmitResult None.

(** What can happen to the component between two renders.  A click on
    the submit button hands [onSubmit] the snapshot of the form store;
    that the controller validates it beforehand is not relied upon. *)
Inductive Event :=
| FieldChanged (key : string) (v : FieldValue)
| FieldBlurred (key : string)
| NextClicked
| BackClicked
| SubmitClicked
| ResetClicked.

Definition handler (e : Event) : Hook.M Component unit :=
  match e with
  | FieldChanged key v => changeField key v
  | FieldBlurred key => blurField key
  | NextClicked => handleNext
  | BackClicked => handleBack
  | SubmitClicked => data <- Hook.gets (fun c => Form.values (form c)) ;; onSubmit data
  | ResetClicked => handleReset
  end.

(** A state update is followed by a render, which clamps the index. *)
Definition dispatch (e : Event) (c : Component) : Component :=
  Hook.exec (handler e ;; render) c.

Definition run (es : list Event) (c : Component) : Component :=
  foldl (fun s e => dispatch e s) c es.

End WithBackend.

End ConditionalStepsForm.

(** ** examples/form-per-step/FormPerStep.tsx *)

Module FormPerStep.
#[local] Open Scope hook_scope.

(** The values of the three step forms. *)
Record AccountData := {
  email : string;
  password : string;
  confirmPassword : string
}.

Record ProfileData := {
  firstName : string;
  lastName : string;
  phone : string
}.

Inductive Theme := light | dark | system.

Record PreferencesData := {
  newsletter : bool;
  notifications : bool;
  theme : Theme;
  language : string
}.

(** Centralized store for all step data; an absent key is [None]. *)
Record FormData := {
  account : option AccountData;
  profile : option ProfileData;
  preferences : option PreferencesData
}.

(** What is stored for a step: the object that step saved. *)
Inductive Draft :=
| AccountDraft (d : AccountData)
| ProfileDraft (d : ProfileData)
| PreferencesDraft (d : PreferencesData).

(** Every stored draft is an object, hence truthy. *)
Definition truthy (d : Draft) : bool := true.

(** The typed reading of a loaded draft ([loadDraft<FormData["account"]>]
    and its siblings).  Only the account form saves under ["account"], and
    so on; a draft of another step under the key is read as absent. *)
Definition asAccount (d : option Draft) : option AccountData :=
  match d with Some (AccountDraft a) => Some a | _ => None end.

Definition asProfile (d : option Draft) : option ProfileData :=
  match d with Some (ProfileDraft p) => Some p | _ => None end.

Definition asPreferences (d : option Draft) : option PreferencesData :=
  match d with Some (PreferencesDraft p) => Some p | _ => None end.

(** [{ ...formData.account, ...formData.profile, ...data }]: the keys of
    the three objects are disjoint, and the spread of an absent object
    adds none. *)
Record FinalData := {
  final_account : option AccountData;
  final_profile : option ProfileData;
  final_preferences : PreferencesData
}.

(** ["email" in data] and [data.email] on the merged payload. *)
Definition emailOf (d : FinalData) : option string :=
  email <$> final_account d.

Record SubmitResult := { success : bool; message : string }.

Record Component := {
  currentStep : Z;
  formData : FormData;
  isLoading : bool;
  isLoadingDrafts : bool;
  submitResult : option SubmitResult;
  localStorage : gmap string (gmap string Draft);
  requests : list FinalData
}.

Definition setCurrentStep (n : Z) : Hook.M Component unit :=
  Hook.modify (fun c =>
    {| currentStep := n;
       formData := formData c;
       isLoading := isLoading c;
       isLoadingDrafts := isLoadingDrafts c;
       submitResult := submitResult c;
       localStorage := localStorage c;
       requests := requests c |}).

Definition setFormData (f : FormData -> FormData) : Hook.M Component unit :=
  Hook.modify (fun c =>
    {| currentStep := currentStep c;
       formData := f (formData c);
       isLoading := isLoading c;
       isLoadingDrafts := isLoadingDrafts c;
       submitResult := submitResult c;
       localStorage := localStorage c;
       requests := requests c |}).

Definition setIsLoading (b : bool) : Hook.M Component unit :=
  Hook.modify (fun c =>
    {| currentStep := currentStep c;
       formData := formData c;
       isLoading := b;
       isLoadingDrafts := isLoadingDrafts c;
       submitResult := submitResult c;
       localStorage := localStorage c;
       requests := requests c |}).

Definition setIsLoadingDrafts (b : bool) : Hook.M Component unit :=
  Hook.modify (fun c =>
    {| currentStep := currentStep c;
       formData := formData c;
       isLoading := isLoading c;
       isLoadingDrafts := b;
       submitResult := submitResult c;
       localStorage := localStorage c;
       requests := requests c |}).

Definition setSubmitResult (r : option SubmitResult) : Hook.M Component unit :=
  Hook.modify (fun c =>
    {| currentStep := currentStep c;
       formData := formData c;
       isLoading := isLoading c;
       isLoadingDrafts := isLoadingDrafts c;
       submitResult := r;
       localStorage := localStorage c;
       requests := requests c |}).

Definition setLocalStorage
           (f : gmap string (gmap string Draft) -> gmap string (gmap string Draft))
  : Hook.M Component unit :=
  Hook.modify (fun c =>
    {| currentStep := currentStep c;
       formData := formData c;
       isLoading := isLoading c;
       isLoadingDrafts := isLoadingDrafts c;
       submitResult := submitResult c;
       localStorage := f (localStorage c);
       requests := requests c |}).

(** The calls of the mock api, run against the component's storage. *)
Definition saveDraft (step : string) (d : Draft)
  : Hook.M Component (DraftApi.ApiResponse bool) :=
  store <- Hook.gets localStorage ;;
  setLocalStorage (fun _ => snd (DraftApi.saveDraft step d store)) ;;
  Hook.ret (fst (DraftApi.saveDraft step d store)).

Definition loadDraft (step : string) : Hook.M Component (DraftApi.ApiResponse Draft) :=
  Hook.gets (fun c => DraftApi.loadDraft truthy step (localStorage c)).

Definition clearDrafts : Hook.M Component unit :=
  setLocalStorage DraftApi.clearDrafts.

(** The component before its mount effect has run. *)
Definition mount (store : gmap string (gmap string Draft)) : Component :=
  {| currentStep := 0;
     formData := {| account := None; profile := None; preferences := None |};
     isLoading := false;
     isLoadingDrafts := true;
     submitResult := None;
     localStorage := store;
     requests := [] |}.

(** Load saved drafts on mount. *)
Definition loadAllDrafts : Hook.M Component unit :=
  setIsLoadingDrafts true ;;
  accountResult <- loadDraft "account" ;;
  profileResult <- loadDraft "profile" ;;
  preferencesResult <- loadDraft "preferences" ;;
  setFormData (fun _ =>
    {| account := if DraftApi.success accountResult
                  then asAccount (DraftApi.data accountResult) else None;
       profile := if DraftApi.success profileResult
                  then asProfile (DraftApi.data profileResult) else None;
       preferences := if DraftApi.success preferencesResult
                      then asPreferences (DraftApi.data preferencesResult)
                      else None |}) ;;
  setIsLoadingDrafts false.

Definition handleAccountSubmit (data : AccountData) : Hook.M Component unit :=
  setIsLoading true ;;
  saveDraft "account" (AccountDraft data) ;;
  setFormData (fun prev =>
    {| account := Some data;
       profile := profile prev;
       preferences := preferences prev |}) ;;
  setCurrentStep 1 ;;
  setIsLoading false.

Definition handleProfileSubmit (data : ProfileData) : Hook.M Component unit :=
  setIsLoading true ;;
  saveDraft "profile" (ProfileDraft data) ;;
  setFormData (fun prev =>
    {| account := account prev;
       profile := Some data;
       preferences := preferences prev |}) ;;
  setCurrentStep 2 ;;
  setIsLoading false.

Section WithBackend.
Variable backend : FinalData -> Api.Reply.

Definition submitOnboarding (payload : FinalData) : Hook.M Component Api.Reply :=
  fun c =>
    (backend payload,
     {| currentStep := currentStep c;
        formData := formData c;
        isLoading := isLoading c;
        isLoadingDrafts := isLoadingDrafts c;
        submitResult := submitResult c;
        localStorage := localStorage c;
        requests := requests c ++ [payload] |}).

(** The handler has no [try]: when the awaited call rejects, nothing
    after the [await] runs. *)
Definition handlePreferencesSubmit (data : PreferencesData) : Hook.M Component unit :=
  setIsLoading true ;;
  saveDraft "preferences" (PreferencesDraft data) ;;
  fd <- Hook.gets formData ;;
  let finalData :=
    {| final_account := account fd;
       final_profile := profile fd;
       final_preferences := data |} in
  reply <- submitOnboarding finalData ;;
  match reply with
  | Api.Resolved response =>
      (if Api.success response
       then
         clearDrafts ;;
         setSubmitResult (Some
           {| success := true;
              message := "Account created successfully! ID: "
                         ++ default "undefined" (Api.data response) |})
       else
         setSubmitResult (Some
           {| success := false;
              message := JS.or_else (Api.error response) "Something went wrong" |})) ;;
      setIsLoading false
  | Api.Rejected => Hook.ret tt
  end.

Definition handleReset : Hook.M Component unit :=
  clearDrafts ;;
  setFormData (fun _ => {| account := None; profile := None; preferences := None |}) ;;
  setCurrentStep 0 ;;
  setSubmitResult None.

(** [submitResult?.success] *)
Definition succeeded (c : Component) : bool :=
  match submitResult c with
  | Some r => success r
  | None => false
  end.

(** What the user can do.  Each control exists only on the screen that
    renders it: the success screen offers Start Over alone, the loading
    screen nothing, and the form of a step is rendered at that step's
    index, its buttons disabled while [isLoading]. *)
Inductive Event :=
| AccountSubmitted (data : AccountData)
| ProfileSubmitted (data : ProfileData)
| ProfileBack
| PreferencesSubmitted (data : PreferencesData)
| PreferencesBack
| StartOver.

Definition handler (e : Event) : Hook.M Component unit :=
  c <- Hook.gets (fun c => c) ;;
  if succeeded c
  then match e with
       | StartOver => handleReset
       | _ => Hook.ret tt
       end
  else if isLoadingDrafts c || isLoading c
  then Hook.ret tt
  else match e with
       | AccountSubmitted data =>
           if (currentStep c =? 0)%Z then handleAccountSubmit data else Hook.ret tt
       | ProfileSubmitted data =>
           if (currentStep c =? 1)%Z then handleProfileSubmit data else Hook.ret tt
       | ProfileBack =>
           if (currentStep c =? 1)%Z then setCurrentStep 0 else Hook.ret tt
       | PreferencesSubmitted data =>
           if (currentStep c =? 2)%Z then handlePreferencesSubmit data else Hook.ret tt
       | PreferencesBack =>
           if (currentStep c =? 2)%Z then setCurrentStep 1 else Hook.ret tt
       | StartOver => Hook.ret tt
       end.

Definition run (es : list Event) (c : Component) : Component :=
  foldl (fun s e => Hook.exec (handler e) s) c es.

End WithBackend.

(** What a fresh mount would load from a storage. *)
Definition restore (store : gmap string (gmap string Draft)) : FormData :=
  formData (Hook.exec loadAllDrafts (mount store)).

(** The account and profile values held by the component are the ones
    persisted. *)
Definition synced (c : Component) : Prop :=
  account (formData c) = account (restore (localStorage c))
  /\ profile (formData c) = profile (restore (localStorage c)).

End FormPerStep.

(** ** Concrete inputs *)

(** Stand-ins for the package built-ins, to run the schemas on concrete
    records: an address passes when it holds an at-sign. *)
Module Sample.
Import Zod Schema.

Definition builtins : ZodBuiltins :=
  {| isEmail := existsChar (Ascii.eqb "@"%char);
     tooSmallMessage := fun _ => "Number must be greater than or equal to 1";
     requiredMessage := "Required" |}.

(** A complete, valid business record. *)
Definition validRecord : OnboardingData :=
  {| email := "ada@example.com";
     password := "Passw0rdX";
     confirmPassword := "Passw0rdX";
     firstName := "Ada";
     lastName := "Lovelace";
     phone := "+12345678901";
     accountType := business;
     companyName := Some "Analytical Engines";
     teamSize := Some 5%Z;
     role := Some "founder" |}.

(** Scenario A: a business account whose company name is empty. *)
Definition businessWithoutCompany : OnboardingData :=
  {| email := "ada@example.com";
     password := "Passw0rdX";
     confirmPassword := "Passw0rdX";
     firstName := "Ada";
     lastName := "Lovelace";
     phone := "+12345678901";
     accountType := business;
     companyName := Some EmptyString;
     teamSize := Some 5%Z;
     role := Some "founder" |}.

(** A personal account that carries a team size of zero. *)
Definition personalWithTeamSizeZero : OnboardingData :=
  {| email := "ada@example.com";
     password := "Passw0rdX";
     confirmPassword := "Passw0rdX";
     firstName := "Ada";
     lastName := "Lovelace";
     phone := "+12345678901";
     accountType := personal;
     companyName := Some EmptyString;
     teamSize := Some 0%Z;
     role := Some EmptyString |}.

(** Scenario D: a valid record whose address the backend knows. *)
Definition takenRecord : OnboardingData :=
  {| email := "taken@example.com";
     password := "Passw0rdX";
     confirmPassword := "Passw0rdX";
     firstName := "Ada";
     lastName := "Lovelace";
     phone := "+12345678901";
     accountType := personal;
     companyName := Some EmptyString;
     teamSize := None;
     role := Some EmptyString |}.

(** The mock backend on a day without the simulated server error. *)
Definition mockBackend (payload : OnboardingData) : Api.Reply :=
  Api.Resolved
    (Api.submitOnboarding (fun d => Some (email d)) false "1700000000000" payload).

(** The component as mounted over a saved draft [d]. *)
Definition mountedWith (d : OnboardingData) : MultiStepSingleForm.Component :=
  MultiStepSingleForm.mount {[ MultiStepSingleForm.STORAGE_KEY := d ]}.

(** The company step left blank, as the form's defaults have it. *)
Definition blankCompany : CompanyStepInput :=
  {| in_companyName := Some EmptyString;
     in_teamSize := None;
     in_role := Some EmptyString |}.

Definition filledCompany : CompanyStepInput :=
  {| in_companyName := Some "Analytical Engines";
     in_teamSize := Some 5%Z;
     in_role := Some "founder" |}.

(** Scenario B: a registration for hybrid attendance. *)
Definition hybridRegistration : ConditionalStepsForm.EventRegistrationData :=
  {| ConditionalStepsForm.name := "Ada Lovelace";
     ConditionalStepsForm.email := "ada@example.com";
     ConditionalStepsForm.attendanceType := ConditionalStepsForm.hybrid;
     ConditionalStepsForm.dietaryRestrictions := Some "None";
     ConditionalStepsForm.tshirtSize := Some ConditionalStepsForm.size_m;
     ConditionalStepsForm.timezone := Some "Europe/London";
     ConditionalStepsForm.platformPreference := Some ConditionalStepsForm.meet;
     ConditionalStepsForm.howDidYouHear := "newsletter" |}.

(** The registration form on its last step after choosing hybrid
    attendance (five steps, index 4), and the same position once the
    choice is changed to virtual (four steps) and not yet re-rendered. *)
Definition onLastHybridStep : ConditionalStepsForm.Component :=
  {| ConditionalStepsForm.currentStep := 4;
     ConditionalStepsForm.isSubmitting := false;
     ConditionalStepsForm.submitResult := None;
     ConditionalStepsForm.form := Form.useForm hybridRegistration;
     ConditionalStepsForm.requests := [] |}.

Definition shrunkToVirtual : ConditionalStepsForm.Component :=
  {| ConditionalStepsForm.currentStep := 4;
     ConditionalStepsForm.isSubmitting := false;
     ConditionalStepsForm.submitResult := None;
     ConditionalStepsForm.form :=
       Form.useForm
         (ConditionalStepsForm.setValue "attendanceType"
            (ConditionalStepsForm.VString "virtual") hybridRegistration);
     ConditionalStepsForm.requests := [] |}.



End Sample.

(* ===================================================================== *)
(** * Part II. Properties                                                 *)
(* ===================================================================== *)

(** ** The company step validator against the domain schema *)

Section CompanyStep.
Import Zod Schema.
Context `{ZodBuiltins}.

Lemma z_string_single (c : StringCheck) (key s : string) :
  z_string [c] key s = [] <-> c s = None.
Proof.
  unfold z_string; simpl. destruct (c s); simpl; split;
    try reflexivity; discriminate.
Qed.

Lemma min_passes (n : nat) (msg s : string) :
  min n msg s = None <-> (n <= String.length s)%nat.
Proof.
  unfold min.
  destruct (Nat.leb_spec n (String.length s)) as [Hle | Hlt];
    split; try reflexivity; try discriminate; try (intros _; exact Hle); lia.
Qed.

Lemma required_string_min1 (msg key : string) (v : option string) :
  required (z_string [min 1 msg]) key v = []
  <-> exists s, v = Some s /\ (1 <= String.length s)%nat.
Proof.
  destruct v as [s |]; unfold required.
  - rewrite z_string_single, min_passes. split.
    + intros Hle. exists s. split; [reflexivity | exact Hle].
    + intros (s' & Heq & Hle). inversion Heq; subst. exact Hle.
  - split; [discriminate | intros (s' & Heq & _); discriminate].
Qed.

Lemma required_number_min1 (msg : option string) (key : string) (v : option Z) :
  required (z_number_min 1 msg) key v = []
  <-> exists n, v = Some n /\ (1 <= n)%Z.
Proof.
  destruct v as [n |]; unfold required.
  - unfold z_number_min.
    destruct (Z.leb_spec 1 n) as [Hle | Hlt].
    + split; [intros _; exists n; split; [reflexivity | exact Hle] | reflexivity].
    + split; [discriminate |].
      intros (n' & Heq & Hle). inversion Heq; subst. lia.
  - split; [discriminate | intros (n' & Heq & _); discriminate].
Qed.

Lemma companyStepSchema_accepts_iff (v : CompanyStepInput) :
  companyStepSchema_accepts v = true
  <-> (exists s, in_companyName v = Some s /\ (1 <= String.length s)%nat)
      /\ (exists n, in_teamSize v = Some n /\ (1 <= n)%Z)
      /\ (exists r, in_role v = Some r /\ (1 <= String.length r)%nat).
Proof.
  rewrite <- (required_string_min1 "Company name is required" "companyName").
  rewrite <- (required_number_min1 (Some "Team size must be at least 1") "teamSize").
  rewrite <- (required_string_min1 "Your role is required" "role").
  unfold companyStepSchema_accepts, companyStepIssues.
  destruct (required _ "companyName" (in_companyName v)) as [|i1 l1];
    destruct (required _ "teamSize" (in_teamSize v)) as [|i2 l2];
    destruct (required _ "role" (in_role v)) as [|i3 l3]; simpl;
    intuition discriminate.
Qed.

Lemma domainCompany_accepts_iff (v : CompanyStepInput) :
  domainCompany_accepts v = true
  <-> (forall n, in_teamSize v = Some n -> (1 <= n)%Z).
Proof.
  unfold domainCompany_accepts, domainCompanyIssues.
  unfold shape_companyName, shape_teamSize, shape_role, optional, z_string.
  destruct (in_companyName v), (in_role v), (in_teamSize v) as [n |]; simpl;
    unfold z_number_min;
    try (destruct (Z.leb_spec 1 n) as [Hle | Hlt]; simpl);
    split; try reflexivity; try discriminate;
    try (intros _ n' Heq; inversion Heq; subst; assumption);
    try (intros Hall; specialize (Hall n eq_refl); lia);
    try (intros _ n' Heq; discriminate).
Qed.

(** C5 (as amended). The company step validator accepts an assignment to
    companyName, teamSize and role exactly when companyName is a present,
    non-empty string, teamSize a present number of at least 1 and role a
    present, non-empty string; every assignment it accepts is valid under
    the domain schema's constraints on these three fields alone. *)
Theorem C5_company_step_validator_is_stricter :
  (forall v : CompanyStepInput,
      companyStepSchema_accepts v = true
      <-> (exists s, in_companyName v = Some s /\ (1 <= String.length s)%nat)
          /\ (exists n, in_teamSize v = Some n /\ (1 <= n)%Z)
          /\ (exists r, in_role v = Some r /\ (1 <= String.length r)%nat))
  /\ (forall v : CompanyStepInput,
         companyStepSchema_accepts v = true -> domainCompany_accepts v = true).
Proof.
  split; [apply companyStepSchema_accepts_iff |].
  intros v Hacc.
  apply companyStepSchema_accepts_iff in Hacc as (_ & (n & Hn & Hle) & _).
  apply domainCompany_accepts_iff. intros n' Hn'. congruence.
Qed.

End CompanyStep.

Section CompanyStepExamples.
Import Zod Schema.

(** C5 (as stated) fails: the blank company step, as the form's defaults
    leave it, is valid under the domain schema's constraints on the three
    fields, and the company step validator rejects it. *)
Lemma C5_counterexample_blank_company_step :
  domainCompany_accepts (H := Sample.builtins) Sample.blankCompany = true
  /\ companyStepSchema_accepts (H := Sample.builtins) Sample.blankCompany = false.
Proof. split; reflexivity. Qed.

Lemma C5_witness_filled_company_step :
  companyStepSchema_accepts (H := Sample.builtins) Sample.filledCompany = true
  /\ domainCompany_accepts (H := Sample.builtins) Sample.filledCompany = true.
Proof.
  split; [reflexivity |].
  apply (proj2 (@C5_company_step_validator_is_stricter Sample.builtins)).
  reflexivity.
Defined.

End CompanyStepExamples.

(** ** The schemas on concrete records *)

Section SchemaExamples.
Import Zod Schema.

Example re_phone_accepts : re_phone "+12345678901" = true.
Proof. reflexivity. Qed.

Example re_phone_rejects_short : re_phone "12345" = false.
Proof. reflexivity. Qed.

Example re_phone_rejects_letters : re_phone "+1234567890a" = false.
Proof. reflexivity. Qed.

Example re_phone_rejects_long : re_phone "123456789012345" = false.
Proof. reflexivity. Qed.

Example validRecord_has_no_issue :
  onboardingIssues (H := Sample.builtins) Sample.validRecord = [].
Proof. reflexivity. Qed.

Example defaults_first_issue :
  firstErrorPath (onboardingIssues (H := Sample.builtins) defaultOnboardingValues)
  = Some "email".
Proof. reflexivity. Qed.

Example mismatched_passwords_issue :
  map path
      (onboardingIssues (H := Sample.builtins)
         {| email := "ada@example.com";
            password := "Passw0rdX";
            confirmPassword := "Passw0rdY";
            firstName := "Ada";
            lastName := "Lovelace";
            phone := "+12345678901";
            accountType := business;
            companyName := None;
            teamSize := None;
            role := None |})
  = [["confirmPassword"]; ["companyName"]; ["teamSize"]].
Proof. reflexivity. Qed.

Example wizard_steps_business :
  map MultiStepSingleForm.label (MultiStepSingleForm.steps business)
  = ["Account"; "Profile"; "Account Type"; "Company"].
Proof. reflexivity. Qed.

Example wizard_steps_personal :
  map MultiStepSingleForm.label (MultiStepSingleForm.steps personal)
  = ["Account"; "Profile"; "Account Type"].
Proof. reflexivity. Qed.

Example findIndex_first_match :
  JS.findIndex (Nat.eqb 2) [1; 2; 3; 2]%nat = 1%Z.
Proof. reflexivity. Qed.

Example findIndex_no_match :
  JS.findIndex (Nat.eqb 7) [1; 2; 3; 2]%nat = (-1)%Z.
Proof. reflexivity. Qed.

End SchemaExamples.

(** ** Array search *)

Section FindIndex.
Context {A : Type} (p : A -> bool).

Lemma findIndex_from_range (l : list A) (i : Z) :
  JS.findIndex_from p l i = (-1)%Z
  \/ (i <= JS.findIndex_from p l i < i + Z.of_nat (length l))%Z.
Proof.
  revert i. induction l as [|x l IH]; intros i; simpl.
  - now left.
  - destruct (p x).
    + right. lia.
    + destruct (IH (i + 1)%Z) as [E | R]; [now left | right; lia].
Qed.

Lemma findIndex_from_missing (l : list A) (i : Z) :
  (forall x, In x l -> p x = false) -> JS.findIndex_from p l i = (-1)%Z.
Proof.
  revert i. induction l as [|x l IH]; intros i Hall; simpl.
  - reflexivity.
  - rewrite (Hall x (or_introl eq_refl)).
    apply IH. intros y Hy. apply Hall. now right.
Qed.

Lemma findIndex_from_found (l : list A) (i : Z) :
  (0 <= i)%Z ->
  (exists x, In x l /\ p x = true) ->
  exists (n : nat) (x : A),
    JS.findIndex_from p l i = (i + Z.of_nat n)%Z
    /\ l !! n = Some x
    /\ p x = true
    /\ (forall (j : nat) (y : A), (j < n)%nat -> l !! j = Some y -> p y = false).
Proof.
  revert i. induction l as [|x l IH]; intros i Hi [y [Hin Hy]].
  - destruct Hin.
  - simpl. destruct (p x) eqn:Hx.
    + exists 0%nat, x. repeat split; try lia; auto.
    + destruct Hin as [-> | Hin]; [congruence |].
      destruct (IH (i + 1)%Z ltac:(lia) (ex_intro _ y (conj Hin Hy)))
        as (n & z & Hr & Hl & Hz & Hbefore).
      exists (S n), z. repeat split; try assumption.
      * rewrite Hr. lia.
      * intros [|j] w Hj Hw; simpl in Hw.
        -- congruence.
        -- apply (Hbefore j w); [lia | assumption].
Qed.

Lemma findIndex_found (l : list A) :
  (exists x, In x l /\ p x = true) ->
  exists (n : nat) (x : A),
    JS.findIndex p l = Z.of_nat n
    /\ l !! n = Some x
    /\ p x = true
    /\ (forall (j : nat) (y : A), (j < n)%nat -> l !! j = Some y -> p y = false).
Proof.
  intros Hex. unfold JS.findIndex.
  destruct (findIndex_from_found l 0%Z ltac:(lia) Hex) as (n & x & Hr & Hrest).
  exists n, x. split; [rewrite Hr; lia | exact Hrest].
Qed.

Lemma findIndex_missing (l : list A) :
  (forall x, In x l -> p x = false) -> JS.findIndex p l = (-1)%Z.
Proof. apply findIndex_from_missing. Qed.

End FindIndex.

(** ** Submission of the single-form wizard *)

Section Submission.
Import Zod Schema MultiStepSingleForm.
Context `{ZodBuiltins}.
Variable backend : OnboardingData -> Api.Reply.

Lemma safeParse_error (data : OnboardingData) (issues : list ZodIssue) :
  onboardingSchema_safeParse data = ParseError issues ->
  onboardingIssues data = issues /\ issues <> [].
Proof.
  unfold onboardingSchema_safeParse.
  destruct (onboardingIssues data) eqn:E; intros Hp; inversion Hp; subst.
  split; [reflexivity | discriminate].
Qed.

Lemma safeParse_success (data : OnboardingData) :
  onboardingIssues data = [] ->
  onboardingSchema_safeParse data = ParseSuccess data.
Proof. unfold onboardingSchema_safeParse. now intros ->. Qed.

(** On a failed parse the handler either moves the index to the result
    of the search or does nothing at all. *)
Lemma onSubmit_failure (data : OnboardingData) (c : Component)
      (issues : list ZodIssue) :
  onboardingSchema_safeParse data = ParseError issues ->
  Hook.exec (onSubmit backend data) c =
    let stepWithError := JS.findIndex (owns (firstErrorPath issues)) (currentSteps c) in
    if (stepWithError =? -1)%Z then c
    else Hook.exec (setCurrentStep (fun _ => stepWithError)) c.
Proof.
  intros Hp. unfold onSubmit. rewrite Hp.
  unfold Hook.exec, Hook.bind, Hook.gets, owns. simpl.
  destruct (JS.findIndex _ (currentSteps c) =? -1)%Z; reflexivity.
Qed.

(** Scenario A: the only issue of a business record that is valid but
    for its empty company name. *)
Lemma issues_of_business_without_company (data : OnboardingData) :
  accountType data = business ->
  JS.falsy_string (companyName data) = true ->
  onboardingObject data = [] ->
  password data = confirmPassword data ->
  (exists n, teamSize data = Some n /\ (1 <= n)%Z) ->
  onboardingIssues data =
    [ {| path := ["companyName"];
         Zod.message := "Company name is required for business accounts" |} ].
Proof.
  intros Hb Hf Ho Hpw (n & Hn & Hle).
  unfold onboardingIssues, onboardingRefinement.
  rewrite Ho, Hb, Hpw, String.eqb_refl, Hf, Hn. simpl.
  destruct (n =? 0)%Z eqn:E0; [lia |].
  destruct (n <? 1)%Z eqn:E1; [lia |].
  reflexivity.
Qed.

(** C1. When the full schema rejects the submitted record and a step of
    the current sequence owns the field of the first issue, submission
    moves the index to the first such step and does not call the
    backend; for a business record that is valid but for an empty
    company name, the first issue is at companyName and submission moves
    to the Company step (index 3) without a call. *)
Theorem C1_failed_submission_navigates_to_owning_step :
  (forall (data : OnboardingData) (c : Component) (issues : list ZodIssue),
      onboardingSchema_safeParse data = ParseError issues ->
      (exists step, In step (currentSteps c)
                    /\ owns (firstErrorPath issues) step = true) ->
      exists (i : nat) (step : StepConfig),
        currentStep (Hook.exec (onSubmit backend data) c) = Z.of_nat i
        /\ currentSteps c !! i = Some step
        /\ owns (firstErrorPath issues) step = true
        /\ (forall (j : nat) (s : StepConfig),
               (j < i)%nat -> currentSteps c !! j = Some s ->
               owns (firstErrorPath issues) s = false)
        /\ requests (Hook.exec (onSubmit backend data) c) = requests c)
  /\
  (forall (data : OnboardingData) (c : Component),
      Form.values (form c) = data ->
      accountType data = business ->
      JS.falsy_string (companyName data) = true ->
      onboardingObject data = [] ->
      password data = confirmPassword data ->
      (exists n, teamSize data = Some n /\ (1 <= n)%Z) ->
      exists issues,
        onboardingSchema_safeParse data = ParseError issues
        /\ firstErrorPath issues = Some "companyName"
        /\ currentStep (Hook.exec (onSubmit backend data) c) = 3%Z
        /\ label <$> (currentSteps c !! 3%nat) = Some "Company"
        /\ requests (Hook.exec (onSubmit backend data) c) = requests c).
Proof.
  split.
  - intros data c issues Hp Hex.
    rewrite (onSubmit_failure data c issues Hp). cbv zeta.
    destruct (findIndex_found (owns (firstErrorPath issues)) (currentSteps c) Hex)
      as (i & step & Hr & Hl & Hown & Hbefore).
    exists i, step. rewrite Hr.
    destruct (Z.of_nat i =? -1)%Z eqn:E; [lia |].
    repeat split; try assumption; reflexivity.
  - intros data c Hv Hb Hf Ho Hpw Hts.
    pose proof (issues_of_business_without_company data Hb Hf Ho Hpw Hts) as Hi.
    eexists. split.
    { unfold onboardingSchema_safeParse. rewrite Hi. reflexivity. }
    split; [reflexivity |].
    unfold onSubmit, onboardingSchema_safeParse. rewrite Hi.
    unfold Hook.exec, Hook.bind, Hook.gets, currentSteps.
    rewrite Hv, Hb. repeat split.
Qed.

(** C2 (as amended). When the full schema rejects the submitted record
    and no step of the current sequence owns the field of the first
    issue, submission leaves the component exactly as it was: the index
    is not moved, the backend is not called, and nothing is reported. *)
Theorem C2_unowned_failure_leaves_component_unchanged
        (data : OnboardingData) (c : Component) (issues : list ZodIssue) :
  onboardingSchema_safeParse data = ParseError issues ->
  (forall step, In step (currentSteps c) ->
                owns (firstErrorPath issues) step = false) ->
  Hook.exec (onSubmit backend data) c = c.
Proof.
  intros Hp Hnone.
  rewrite (onSubmit_failure data c issues Hp). cbv zeta.
  rewrite (findIndex_missing _ _ Hnone). reflexivity.
Qed.

(** C8. A record that the full schema accepts parses successfully, and
    its submission calls the backend exactly once, with that record. *)
Theorem C8_valid_record_reaches_endpoint_once
        (r : OnboardingData) (c : Component) :
  onboardingIssues r = [] ->
  onboardingSchema_safeParse r = ParseSuccess r
  /\ requests (Hook.exec (onSubmit backend r) c) = (requests c ++ [r])%list.
Proof.
  intros Hvalid. split; [now apply safeParse_success |].
  unfold onSubmit. rewrite (safeParse_success r Hvalid).
  unfold Hook.exec, Hook.bind, submitOnboarding. simpl.
  destruct (backend r) as [response |]; simpl; [| reflexivity].
  destruct (Api.success response); reflexivity.
Qed.

(** C7. When the backend call fails, by a reply with success false or
    by a rejected promise, the form store and the saved draft are as
    before the submission, and the reported message is the reply's error
    string when it carries a non-empty one, a generic message otherwise. *)
Theorem C7_endpoint_failure_keeps_data_and_reports_message
        (data : OnboardingData) (c : Component) :
  onboardingIssues data = [] ->
  (forall response, backend data = Api.Resolved response ->
                    Api.success response = false) ->
  let c' := Hook.exec (onSubmit backend data) c in
  form c' = form c
  /\ localStorage c' = localStorage c
  /\ currentStep c' = currentStep c
  /\ isSubmitting c' = false
  /\ exists msg,
       submitResult c' = Some {| success := false; message := msg |}
       /\ (forall response e,
              backend data = Api.Resolved response ->
              Api.error response = Some e -> e <> EmptyString -> msg = e)
       /\ (forall response,
              backend data = Api.Resolved response ->
              Api.error response = None \/ Api.error response = Some EmptyString ->
              msg = "Something went wrong")
       /\ (backend data = Api.Rejected ->
           msg = "Network error. Please try again.").
Proof.
  intros Hvalid Hfail. cbv zeta.
  unfold onSubmit. rewrite (safeParse_success data Hvalid).
  unfold Hook.exec, Hook.bind, submitOnboarding. simpl.
  destruct (backend data) as [response |] eqn:Hreply; simpl.
  - rewrite (Hfail response eq_refl). simpl.
    repeat split.
    exists (JS.or_else (Api.error response) "Something went wrong").
    split; [reflexivity |]. repeat split.
    + intros response' e Heq He Hne. inversion Heq; subst response'.
      rewrite He. simpl. destruct (String.eqb_spec e EmptyString); congruence.
    + intros response' Heq [He | He]; inversion Heq; subst response';
        rewrite He; reflexivity.
    + discriminate.
  - repeat split.
    exists "Network error. Please try again.".
    split; [reflexivity |]. repeat split; intros; discriminate.
Qed.

End Submission.

Section SubmissionExamples.
Import Zod Schema MultiStepSingleForm.

Lemma C1_witness_business_without_company :
  accountType Sample.businessWithoutCompany = business
  /\ companyName Sample.businessWithoutCompany = Some EmptyString
  /\ currentStep
       (Hook.exec (onSubmit (H := Sample.builtins) Sample.mockBackend
                            Sample.businessWithoutCompany)
                  (Sample.mountedWith Sample.businessWithoutCompany)) = 3%Z
  /\ requests
       (Hook.exec (onSubmit (H := Sample.builtins) Sample.mockBackend
                            Sample.businessWithoutCompany)
                  (Sample.mountedWith Sample.businessWithoutCompany)) = [].
Proof.
  pose proof (@C1_failed_submission_navigates_to_owning_step
                Sample.builtins Sample.mockBackend) as [Hgeneral Hscenario].
  assert (Hteam : exists n, teamSize Sample.businessWithoutCompany = Some n
                            /\ (1 <= n)%Z)
    by (exists 5%Z; split; [reflexivity | lia]).
  destruct (Hscenario Sample.businessWithoutCompany
                      (Sample.mountedWith Sample.businessWithoutCompany)
                      eq_refl eq_refl eq_refl eq_refl eq_refl Hteam)
    as (issues & _ & _ & Hstep & _ & Hreq).
  assert (Howner : exists step,
             In step (currentSteps (Sample.mountedWith Sample.businessWithoutCompany))
             /\ owns (Some "companyName") step = true).
  { exists {| label := "Company"; fields := ["companyName"; "teamSize"; "role"] |}.
    split; [vm_compute; tauto | reflexivity]. }
  destruct (Hgeneral Sample.businessWithoutCompany
                     (Sample.mountedWith Sample.businessWithoutCompany)
                     [ {| path := ["companyName"];
                          Zod.message := "Company name is required for business accounts" |} ]
                     eq_refl Howner)
    as (i & step & _).
  repeat split; assumption.
Defined.

(** C2 (as stated) fails: a personal record with a team size of zero is
    rejected with its first issue at teamSize, no step of the personal
    sequence owns that field, and submission returns with the component
    exactly as it was.  A handler has no other channel than the
    component: no error of any kind is signalled. *)
Lemma C2_counterexample_unowned_failure_is_silent :
  onboardingSchema_safeParse (H := Sample.builtins) Sample.personalWithTeamSizeZero
    = ParseError [ {| path := ["teamSize"];
                      Zod.message := "Number must be greater than or equal to 1" |} ]
  /\ JS.findIndex (owns (Some "teamSize"))
                  (currentSteps (Sample.mountedWith Sample.personalWithTeamSizeZero))
     = (-1)%Z
  /\ onSubmit (H := Sample.builtins) Sample.mockBackend
              Sample.personalWithTeamSizeZero
              (Sample.mountedWith Sample.personalWithTeamSizeZero)
     = (tt, Sample.mountedWith Sample.personalWithTeamSizeZero)
  /\ submitResult (Sample.mountedWith Sample.personalWithTeamSizeZero) = None.
Proof. repeat split. Qed.

Lemma C2_witness_personal_with_team_size_zero :
  Hook.exec (onSubmit (H := Sample.builtins) Sample.mockBackend
                      Sample.personalWithTeamSizeZero)
            (Sample.mountedWith Sample.personalWithTeamSizeZero)
  = Sample.mountedWith Sample.personalWithTeamSizeZero.
Proof.
  apply (@C2_unowned_failure_leaves_component_unchanged
           Sample.builtins Sample.mockBackend
           Sample.personalWithTeamSizeZero
           (Sample.mountedWith Sample.personalWithTeamSizeZero)
           [ {| path := ["teamSize"];
                Zod.message := "Number must be greater than or equal to 1" |} ]).
  - reflexivity.
  - intros step Hin. vm_compute in Hin.
    destruct Hin as [<- | [<- | [<- | []]]]; reflexivity.
Defined.

Lemma C8_witness_valid_record :
  onboardingIssues (H := Sample.builtins) Sample.validRecord = []
  /\ requests
       (Hook.exec (onSubmit (H := Sample.builtins) Sample.mockBackend Sample.validRecord)
                  (Sample.mountedWith Sample.validRecord))
     = [Sample.validRecord].
Proof.
  split; [reflexivity |].
  apply (@C8_valid_record_reaches_endpoint_once
           Sample.builtins Sample.mockBackend Sample.validRecord
           (Sample.mountedWith Sample.validRecord)).
  reflexivity.
Defined.

Lemma C7_witness_email_already_registered :
  Sample.mockBackend Sample.takenRecord
    = Api.Resolved {| Api.success := false; Api.data := None;
                      Api.error := Some "This email is already registered." |}
  /\ form (Hook.exec (onSubmit (H := Sample.builtins) Sample.mockBackend Sample.takenRecord)
                     (Sample.mountedWith Sample.takenRecord))
     = form (Sample.mountedWith Sample.takenRecord)
  /\ localStorage
       (Hook.exec (onSubmit (H := Sample.builtins) Sample.mockBackend Sample.takenRecord)
                  (Sample.mountedWith Sample.takenRecord)) !! STORAGE_KEY
     = Some Sample.takenRecord
  /\ submitResult
       (Hook.exec (onSubmit (H := Sample.builtins) Sample.mockBackend Sample.takenRecord)
                  (Sample.mountedWith Sample.takenRecord))
     = Some {| success := false; message := "This email is already registered." |}.
Proof.
  destruct (@C7_endpoint_failure_keeps_data_and_reports_message
              Sample.builtins Sample.mockBackend Sample.takenRecord
              (Sample.mountedWith Sample.takenRecord) eq_refl)
    as (Hform & Hstore & _ & _ & msg & Hres & Hverbatim & _ & _).
  { intros response Hreply. vm_compute in Hreply.
    inversion Hreply; subst response. reflexivity. }
  split; [reflexivity |].
  split; [exact Hform |].
  split; [rewrite Hstore; reflexivity |].
  rewrite Hres.
  rewrite (Hverbatim _ "This email is already registered." eq_refl eq_refl
                     ltac:(discriminate)).
  reflexivity.
Defined.

End SubmissionExamples.

(** ** The form controller: scoped validation and timing *)

Section FormProperties.
Import Form.
Context {Values Value : Type}.
Variable resolver : Values -> gmap string string.
Variable setValue : string -> Value -> Values -> Values.

Lemma validateField_errors (name g : string) (fs : FormState Values) :
  errors (validateField resolver name fs) !! g =
    if decide (g = name) then resolver (values fs) !! g else errors fs !! g.
Proof.
  unfold validateField; simpl.
  destruct (decide (g = name)) as [-> | Hne].
  - destruct (resolver (values fs) !! name) eqn:E.
    + apply lookup_insert_eq.
    + apply lookup_delete_eq.
  - destruct (resolver (values fs) !! name).
    + apply lookup_insert_ne. congruence.
    + apply lookup_delete_ne. congruence.
Qed.

(** One step of [trigger]: touch, then validate. *)
Lemma trigger_step_errors (name g : string) (fs : FormState Values) :
  errors (validateField resolver name (touch name fs)) !! g =
    if decide (g = name) then resolver (values fs) !! g else errors fs !! g.
Proof. exact (validateField_errors name g (touch name fs)). Qed.

Lemma trigger_values (names : list string) (fs : FormState Values) :
  values (snd (trigger resolver names fs)) = values fs.
Proof.
  unfold trigger; simpl. revert fs.
  induction names as [|n names IH]; intros fs; simpl; [reflexivity |].
  now rewrite IH.
Qed.

Lemma trigger_errors_outside (names : list string) (g : string)
      (fs : FormState Values) :
  ~ In g names ->
  errors (snd (trigger resolver names fs)) !! g = errors fs !! g.
Proof.
  unfold trigger; simpl. revert fs.
  induction names as [|n names IH]; intros fs Hout; simpl; [reflexivity |].
  rewrite IH by (intros Hin; apply Hout; now right).
  rewrite trigger_step_errors.
  destruct (decide (g = n)) as [-> | _]; [| reflexivity].
  exfalso. apply Hout. now left.
Qed.

Lemma trigger_errors_inside (names : list string) (n : string)
      (fs : FormState Values) :
  In n names ->
  errors (snd (trigger resolver names fs)) !! n = resolver (values fs) !! n.
Proof.
  revert fs.
  induction names as [|m names IH]; intros fs Hin; [destruct Hin |].
  destruct (in_dec String.string_dec n names) as [Hrest | Hrest].
  - change (snd (trigger resolver (m :: names) fs))
      with (snd (trigger resolver names (validateField resolver m (touch m fs)))).
    rewrite (IH _ Hrest). reflexivity.
  - destruct Hin as [-> | Hin]; [| contradiction].
    change (snd (trigger resolver (n :: names) fs))
      with (snd (trigger resolver names (validateField resolver n (touch n fs)))).
    rewrite (trigger_errors_outside names n _ Hrest).
    rewrite trigger_step_errors.
    destruct (decide (n = n)); [reflexivity | congruence].
Qed.

Lemma trigger_result (names : list string) (fs : FormState Values) :
  fst (trigger resolver names fs) = true
  <-> (forall n, In n names -> resolver (values fs) !! n = None).
Proof.
  unfold trigger; simpl. rewrite forallb_forall.
  split; intros Hall n Hin.
  - apply (bool_decide_eq_true_1 _ (Hall n Hin)).
  - apply bool_decide_eq_true_2. now apply Hall.
Qed.

(** C3. A step validation over the field paths F answers true exactly
    when every field of F passes the validator, it sets the displayed
    error of each field of F to the validator's verdict, and it leaves
    the displayed error of every field outside F as it was. *)
Theorem C3_step_validation_is_scoped (F : list string) (fs : FormState Values) :
  (fst (trigger resolver F fs) = true
   <-> (forall n, In n F -> resolver (values fs) !! n = None))
  /\ (forall g, ~ In g F ->
                errors (snd (trigger resolver F fs)) !! g = errors fs !! g)
  /\ (forall n, In n F ->
                errors (snd (trigger resolver F fs)) !! n = resolver (values fs) !! n)
  /\ values (snd (trigger resolver F fs)) = values fs.
Proof.
  split; [apply trigger_result |].
  split; [intros g; apply trigger_errors_outside |].
  split; [intros n; apply trigger_errors_inside |].
  apply trigger_values.
Qed.

(** A field that has not lost focus and shows no error keeps both
    through any event that is not its own loss of focus. *)
Lemma untouched_field_stays_quiet (f : string) (e : FieldEvent)
      (fs : FormState Values) :
  e <> Blur f ->
  f ∉ touchedFields fs ->
  errors fs !! f = None ->
  (f ∉ touchedFields (fieldEvent resolver setValue e fs))
  /\ errors (fieldEvent resolver setValue e fs) !! f = None.
Proof.
  intros Hne Hun Herr. destruct e as [g v | g]; cbn [fieldEvent].
  - unfold onChange.
    destruct (bool_decide (g ∈ touchedFields fs)) eqn:Ht.
    + apply bool_decide_eq_true in Ht.
      split; [exact Hun |].
      rewrite validateField_errors.
      destruct (decide (f = g)) as [-> | _]; [contradiction | exact Herr].
    + split; [exact Hun | exact Herr].
  - assert (Hfg : f <> g) by congruence.
    unfold onBlur. split.
    + cbn [validateField touch touchedFields].
      intros [Hin | Hin]%elem_of_union; [| contradiction].
      apply elem_of_singleton in Hin. contradiction.
    + rewrite validateField_errors.
      destruct (decide (f = g)); [contradiction | exact Herr].
Qed.

(** C9. Under the onTouchedThenChange policy: as long as a field has
    not lost focus no error is displayed for it, whatever its value; a
    loss of focus displays the error of an invalid value; and once the
    field is touched, a change to a valid value clears the error at once. *)
Theorem C9_touched_then_change (f : string) :
  (forall (es : list FieldEvent) (fs : FormState Values),
      f ∉ touchedFields fs ->
      errors fs !! f = None ->
      (forall e, In e es -> e <> Blur f) ->
      errors (fieldEvents resolver setValue es fs) !! f = None)
  /\ (forall (fs : FormState Values) (msg : string),
         resolver (values fs) !! f = Some msg ->
         errors (onBlur resolver f fs) !! f = Some msg
         /\ (f ∈ touchedFields (onBlur resolver f fs))
         /\ values (onBlur resolver f fs) = values fs)
  /\ (forall (fs : FormState Values) (v : Value),
         f ∈ touchedFields fs ->
         resolver (setValue f v (values fs)) !! f = None ->
         errors (onChange resolver setValue f v fs) !! f = None
         /\ values (onChange resolver setValue f v fs) = setValue f v (values fs)).
Proof.
  repeat split.
  - intros es. unfold fieldEvents.
    induction es as [|e es IH]; intros fs Hun Herr Hno; simpl; [exact Herr |].
    destruct (untouched_field_stays_quiet f e fs
                (Hno e (or_introl eq_refl)) Hun Herr) as [Hun' Herr'].
    apply IH; [exact Hun' | exact Herr' |].
    intros e' Hin. apply Hno. now right.
  - unfold onBlur. rewrite validateField_errors.
    destruct (decide (f = f)); [assumption | congruence].
  - unfold onBlur. cbn [validateField touch touchedFields].
    apply elem_of_union_l. now apply elem_of_singleton.
  - unfold onChange.
    rewrite bool_decide_eq_true_2 by assumption.
    rewrite validateField_errors.
    destruct (decide (f = f)); [assumption | congruence].
  - unfold onChange.
    destruct (bool_decide (f ∈ touchedFields fs)); reflexivity.
Qed.

End FormProperties.

Section StepValidation.
Import Zod Schema MultiStepSingleForm.
Context `{ZodBuiltins}.

(** [validateCurrentStep] of the wizard: without a step at the index it
    answers false and touches nothing; otherwise it is the scoped
    validation of that step's fields. *)
Lemma validateCurrentStep_scoped (c : Component) :
  match JS.nth_Z (currentSteps c) (currentStep c) with
  | None => validateCurrentStep c = (false, c)
  | Some cfg =>
      (Hook.eval validateCurrentStep c = true
       <-> (forall n, In n (fields cfg) ->
                      resolver (Form.values (form c)) !! n = None))
      /\ (forall g, ~ In g (fields cfg) ->
                    Form.errors (form (Hook.exec validateCurrentStep c)) !! g
                    = Form.errors (form c) !! g)
      /\ currentStep (Hook.exec validateCurrentStep c) = currentStep c
  end.
Proof.
  unfold validateCurrentStep, Hook.eval, Hook.exec, Hook.bind, Hook.gets.
  destruct (JS.nth_Z (currentSteps c) (currentStep c)) as [cfg |]; [| reflexivity].
  pose proof (trigger_result resolver (fields cfg) (form c)) as Hres.
  pose proof (fun g => trigger_errors_outside resolver (fields cfg) g (form c)) as Hout.
  destruct (Form.trigger resolver (fields cfg) (form c)) as [ok f'].
  simpl. repeat split.
  - apply Hres.
  - apply Hres.
  - exact Hout.
Qed.

End StepValidation.

Section FormExamples.
Import Zod Schema MultiStepSingleForm.

Lemma C3_witness_profile_step :
  fst (Form.trigger (resolver (H := Sample.builtins))
                    ["firstName"; "lastName"; "phone"]
                    (Form.useForm Sample.validRecord)) = true
  /\ Form.errors
       (snd (Form.trigger (resolver (H := Sample.builtins))
                          ["email"; "password"; "confirmPassword"]
                          (Form.useForm defaultOnboardingValues))) !! "phone"
     = None
  /\ Form.errors
       (snd (Form.trigger (resolver (H := Sample.builtins))
                          ["email"; "password"; "confirmPassword"]
                          (Form.useForm defaultOnboardingValues))) !! "email"
     = Some "Email is required".
Proof.
  destruct (C3_step_validation_is_scoped
              (resolver (H := Sample.builtins))
              ["firstName"; "lastName"; "phone"]
              (Form.useForm Sample.validRecord)) as (Hiff & _).
  destruct (C3_step_validation_is_scoped
              (resolver (H := Sample.builtins))
              ["email"; "password"; "confirmPassword"]
              (Form.useForm defaultOnboardingValues)) as (_ & Hout & Hin & _).
  split; [| split].
  - apply Hiff. intros n [<- | [<- | [<- | []]]]; reflexivity.
  - rewrite Hout; [reflexivity |].
    intros [E | [E | [E | []]]]; discriminate.
  - rewrite Hin; [reflexivity | now left].
Defined.

Lemma C9_witness_email_field :
  Form.errors
    (Form.fieldEvents (resolver (H := Sample.builtins)) setValue
       [Form.Change "email" (VString "not-an-address")]
       (Form.useForm defaultOnboardingValues)) !! "email" = None
  /\ Form.errors
       (Form.fieldEvents (resolver (H := Sample.builtins)) setValue
          [Form.Change "email" (VString "not-an-address"); Form.Blur "email"]
          (Form.useForm defaultOnboardingValues)) !! "email"
     = Some "Invalid email format"
  /\ Form.errors
       (Form.fieldEvents (resolver (H := Sample.builtins)) setValue
          [Form.Change "email" (VString "not-an-address"); Form.Blur "email";
           Form.Change "email" (VString "ada@example.com")]
          (Form.useForm defaultOnboardingValues)) !! "email" = None.
Proof.
  destruct (C9_touched_then_change (resolver (H := Sample.builtins)) setValue "email")
    as (Hquiet & Hblur & Hchange).
  assert (Hfirst :
            Form.errors
              (Form.fieldEvents (resolver (H := Sample.builtins)) setValue
                 [Form.Change "email" (VString "not-an-address")]
                 (Form.useForm defaultOnboardingValues)) !! "email" = None).
  { apply Hquiet.
    - apply not_elem_of_empty.
    - reflexivity.
    - intros e [<- | []]. discriminate. }
  destruct (Hblur (Form.fieldEvents (resolver (H := Sample.builtins)) setValue
                     [Form.Change "email" (VString "not-an-address")]
                     (Form.useForm defaultOnboardingValues))
                  "Invalid email format" eq_refl)
    as (Hshown & Htouched & _).
  destruct (Hchange (Form.onBlur (resolver (H := Sample.builtins)) "email"
                       (Form.fieldEvents (resolver (H := Sample.builtins)) setValue
                          [Form.Change "email" (VString "not-an-address")]
                          (Form.useForm defaultOnboardingValues)))
                    (VString "ada@example.com") Htouched eq_refl)
    as (Hcleared & _).
  split; [exact Hfirst |]. split; [exact Hshown | exact Hcleared].
Defined.

End FormExamples.

(** ** The wizard: index under next, back and reset *)

Section WizardIndex.
Import Schema MultiStepSingleForm.
Context `{ZodBuiltins}.

Lemma wizard_steps_length (a : AccountType) : (3 <= length (steps a) <= 4)%nat.
Proof. destruct a; vm_compute; lia. Qed.

Lemma wizard_handleNext_inBounds (c : Component) :
  inBounds c -> inBounds (Hook.exec handleNext c).
Proof.
  unfold inBounds. intros Hc.
  unfold handleNext, validateCurrentStep, Hook.exec, Hook.bind, Hook.gets.
  cbv beta iota.
  destruct (JS.nth_Z (currentSteps c) (currentStep c)) as [cfg |];
    [| cbn; exact Hc].
  pose proof (trigger_values resolver (fields cfg) (form c)) as Hv.
  destruct (Form.trigger resolver (fields cfg) (form c)) as [ok f'].
  cbn [snd] in Hv.
  destruct ok; cbn; unfold currentSteps in *; cbn; rewrite Hv; lia.
Qed.

Lemma Zod_safeParse_cases (data : OnboardingData) :
  onboardingSchema_safeParse data = Zod.ParseSuccess data
  \/ exists issues, onboardingSchema_safeParse data = Zod.ParseError issues.
Proof.
  unfold onboardingSchema_safeParse.
  destruct (onboardingIssues data) as [|i issues]; [now left | right; eauto].
Qed.

Lemma wizard_handleBack_inBounds (c : Component) :
  inBounds c -> inBounds (Hook.exec handleBack c).
Proof.
  unfold inBounds, handleBack, currentSteps, Hook.exec. simpl. lia.
Qed.

Lemma wizard_handleReset_inBounds (c : Component) :
  inBounds (Hook.exec handleReset c).
Proof. unfold inBounds. vm_compute. split; discriminate. Qed.

(** The navigation of a failed submission stays inside the sequence. *)
Lemma wizard_onSubmit_inBounds (backend : OnboardingData -> Api.Reply)
      (data : OnboardingData) (c : Component) :
  inBounds c -> inBounds (Hook.exec (onSubmit backend data) c).
Proof.
  intros Hc. unfold onSubmit.
  destruct (Zod_safeParse_cases data) as [Hok | (issues & Herr)].
  - rewrite Hok. unfold Hook.exec, Hook.bind, submitOnboarding. cbn.
    destruct (backend data) as [response |]; cbn;
      [destruct (Api.success response) |]; exact Hc.
  - rewrite Herr. unfold Hook.exec, Hook.bind, Hook.gets. cbn.
    set (p := fun step : StepConfig =>
                JS.includes (fields step) (Zod.firstErrorPath issues)).
    destruct (findIndex_from_range p (currentSteps c) 0%Z) as [E | R].
    + unfold JS.findIndex. rewrite E. cbn. exact Hc.
    + unfold JS.findIndex.
      destruct (JS.findIndex_from p (currentSteps c) 0 =? -1)%Z; cbn;
        [exact Hc |].
      unfold inBounds, currentSteps in *. cbn. lia.
Qed.

End WizardIndex.

(** ** The registration form: step sequence and index *)

Section ConditionalSteps.
Import ConditionalStepsForm.
Context `{ZodBuiltins}.
Variable backend : EventRegistrationData -> Api.Reply.

Lemma steps_length (a : AttendanceType) : (4 <= length (steps a) <= 5)%nat.
Proof. destruct a; vm_compute; lia. Qed.

Lemma currentSteps_nonempty (c : Component) :
  (4 <= Z.of_nat (length (currentSteps c)))%Z.
Proof.
  unfold currentSteps.
  pose proof (steps_length (attendanceType (Form.values (form c)))). lia.
Qed.

(** A render writes the clamped index and nothing else. *)
Lemma render_exec (c : Component) :
  Hook.exec render c =
    {| currentStep := safeCurrentStep c;
       isSubmitting := isSubmitting c;
       submitResult := submitResult c;
       form := form c;
       requests := requests c |}.
Proof.
  unfold render, Hook.exec, Hook.bind, Hook.gets. simpl.
  destruct (safeCurrentStep c =? currentStep c)%Z eqn:E; simpl.
  - apply Z.eqb_eq in E. rewrite E. destruct c; reflexivity.
  - reflexivity.
Qed.

Lemma safeCurrentStep_fixed (c : Component) :
  safeCurrentStep
    {| currentStep := safeCurrentStep c;
       isSubmitting := isSubmitting c;
       submitResult := submitResult c;
       form := form c;
       requests := requests c |} = safeCurrentStep c.
Proof. unfold safeCurrentStep, currentSteps; simpl. lia. Qed.

(** C4. When the step sequence has shrunk to a length at or below the
    index, the render sets the index to min(index, length - 1), which is
    not negative; the clamp applied twice equals the clamp applied once,
    and it leaves the form store (values, displayed errors, touched
    fields) as it was. *)
Theorem C4_clamp_on_shrink :
  (forall c : Component,
      (Z.of_nat (length (currentSteps c)) <= currentStep c)%Z ->
      currentStep (Hook.exec render c)
      = Z.min (currentStep c) (Z.of_nat (length (currentSteps c)) - 1)
      /\ (0 <= currentStep (Hook.exec render c))%Z)
  /\ (forall c : Component,
         Hook.exec render (Hook.exec render c) = Hook.exec render c)
  /\ (forall c : Component,
         form (Hook.exec render c) = form c
         /\ requests (Hook.exec render c) = requests c).
Proof.
  split; [| split].
  - intros c Hshrunk. rewrite render_exec. simpl. split; [reflexivity |].
    unfold safeCurrentStep. pose proof (currentSteps_nonempty c). lia.
  - intros c. rewrite (render_exec c). rewrite render_exec.
    rewrite safeCurrentStep_fixed. reflexivity.
  - intros c. rewrite render_exec. split; reflexivity.
Qed.

(** C6. For a record whose attendance type is hybrid the step sequence
    is Basic Info, Attendance, In-Person, Virtual, Finish, in this order. *)
Theorem C6_hybrid_has_both_steps (r : EventRegistrationData) :
  attendanceType r = hybrid ->
  steps (attendanceType r) =
    [ {| label := "Basic Info"; fields := ["name"; "email"] |};
      {| label := "Attendance"; fields := ["attendanceType"] |};
      {| label := "In-Person"; fields := ["dietaryRestrictions"; "tshirtSize"] |};
      {| label := "Virtual"; fields := ["timezone"; "platformPreference"] |};
      {| label := "Finish"; fields := ["howDidYouHear"] |} ].
Proof. intros ->. reflexivity. Qed.

Lemma handler_keeps_nonneg (e : Event) (c : Component) :
  (0 <= currentStep c)%Z ->
  (0 <= currentStep (Hook.exec (handler backend e) c))%Z.
Proof.
  intros Hc. destruct e as [key v | key | | | |]; simpl.
  - exact Hc.
  - exact Hc.
  - unfold handleNext, validateCurrentStep, Hook.exec, Hook.bind, Hook.gets.
    cbv beta iota.
    pose proof (currentSteps_nonempty c) as Hlen.
    destruct (JS.nth_Z (currentSteps c) (currentStep c)) as [cfg |];
      [| cbn; exact Hc].
    destruct (Form.trigger resolver (fields cfg) (form c)) as [ok f'].
    destruct ok; cbn; lia.
  - unfold handleBack, Hook.exec. simpl. lia.
  - unfold onSubmit, Hook.exec, Hook.bind, Hook.gets, submitOnboarding. simpl.
    destruct (backend (Form.values (form c))) as [response |]; simpl;
      [destruct (Api.success response) |]; exact Hc.
  - unfold handleReset, Hook.exec. simpl. lia.
Qed.

Lemma render_inBounds (c : Component) :
  (0 <= currentStep c)%Z -> inBounds (Hook.exec render c).
Proof.
  intros Hc. rewrite render_exec. unfold inBounds, safeCurrentStep.
  pose proof (currentSteps_nonempty c) as Hlen.
  unfold currentSteps in *. simpl. lia.
Qed.

Lemma dispatch_inBounds (e : Event) (c : Component) :
  (0 <= currentStep c)%Z -> inBounds (dispatch backend e c).
Proof.
  intros Hc. unfold dispatch.
  unfold Hook.exec at 1, Hook.bind.
  pose proof (handler_keeps_nonneg e c Hc) as Hnext.
  unfold Hook.exec in Hnext.
  destruct (handler backend e c) as [[] c1]. simpl in Hnext.
  apply (render_inBounds c1 Hnext).
Qed.

Lemma run_inBounds (es : list Event) (c : Component) :
  inBounds c -> inBounds (run backend es c).
Proof.
  unfold run. revert c.
  induction es as [|e es IH]; intros c Hc; simpl; [exact Hc |].
  apply IH. apply dispatch_inBounds. apply Hc.
Qed.

(** C10. The index of the current step is always within the current
    sequence: from the mounted registration form, after any sequence of
    field changes and blurs, next, back, submit and reset, each followed
    by the clamping render, 0 <= index <= length - 1; every single such
    transition preserves the bound; and in the wizard next, back and
    reset preserve it as well. *)
Theorem C10_index_always_in_bounds :
  (forall es : list Event, inBounds (run backend es mount))
  /\ (forall (e : Event) (c : Component),
         inBounds c -> inBounds (dispatch backend e c))
  /\ (forall c : MultiStepSingleForm.Component,
         MultiStepSingleForm.inBounds c ->
         MultiStepSingleForm.inBounds
           (Hook.exec MultiStepSingleForm.handleNext c)
         /\ MultiStepSingleForm.inBounds
              (Hook.exec MultiStepSingleForm.handleBack c)
         /\ MultiStepSingleForm.inBounds
              (Hook.exec MultiStepSingleForm.handleReset c)).
Proof.
  split; [| split].
  - intros es. apply run_inBounds. unfold inBounds. vm_compute.
    split; discriminate.
  - intros e c Hc. apply dispatch_inBounds. apply Hc.
  - intros c Hc. split; [| split].
    + now apply wizard_handleNext_inBounds.
    + now apply wizard_handleBack_inBounds.
    + apply wizard_handleReset_inBounds.
Qed.

End ConditionalSteps.

Section ConditionalStepsExamples.
Import ConditionalStepsForm.

Lemma C4_witness_hybrid_to_virtual :
  Z.of_nat (length (currentSteps Sample.shrunkToVirtual)) = 4%Z
  /\ currentStep Sample.shrunkToVirtual = 4%Z
  /\ currentStep (Hook.exec render Sample.shrunkToVirtual) = 3%Z.
Proof.
  destruct C4_clamp_on_shrink as (Hclamp & _ & _).
  destruct (Hclamp Sample.shrunkToVirtual) as (Hindex & _).
  - vm_compute. discriminate.
  - split; [reflexivity |]. split; [reflexivity |].
    rewrite Hindex. reflexivity.
Defined.

Lemma C6_witness_hybrid_registration :
  attendanceType Sample.hybridRegistration = hybrid
  /\ map label (steps (attendanceType Sample.hybridRegistration))
     = ["Basic Info"; "Attendance"; "In-Person"; "Virtual"; "Finish"].
Proof.
  split; [reflexivity |].
  rewrite (C6_hybrid_has_both_steps Sample.hybridRegistration eq_refl).
  reflexivity.
Defined.

Lemma C10_witness_change_on_last_step :
  inBounds Sample.onLastHybridStep
  /\ currentStep
       (dispatch (H := Sample.builtins) (fun _ => Api.Rejected)
                 (FieldChanged "attendanceType" (VString "virtual"))
                 Sample.onLastHybridStep) = 3%Z
  /\ inBounds
       (dispatch (H := Sample.builtins) (fun _ => Api.Rejected)
                 (FieldChanged "attendanceType" (VString "virtual"))
                 Sample.onLastHybridStep).
Proof.
  assert (Hstart : inBounds Sample.onLastHybridStep)
    by (unfold inBounds; vm_compute; split; discriminate).
  destruct (@C10_index_always_in_bounds Sample.builtins (fun _ => Api.Rejected))
    as (_ & Hstep & _).
  split; [exact Hstart |]. split; [reflexivity |].
  apply Hstep. exact Hstart.
Defined.

End ConditionalStepsExamples.

(* ===================================================================== *)
(** * Part III. Further properties of the code                            *)
(* ===================================================================== *)

(** ** Where the issues of a schema lie *)

Section IssuePaths.
Import Zod.
Context `{ZodBuiltins}.

Lemma z_string_allAt (checks : list StringCheck) (key s : string) :
  allAt key (z_string checks key s).
Proof.
  unfold allAt, z_string.
  induction checks as [|c checks IH]; simpl; [constructor |].
  apply Forall_app. split; [| exact IH].
  destruct (c s); repeat constructor.
Qed.

Lemma z_number_min_allAt (n : Z) (msg : option string) (key : string) (v : Z) :
  allAt key (z_number_min n msg key v).
Proof.
  unfold allAt, z_number_min. destruct (n <=? v)%Z; repeat constructor.
Qed.

Lemma optional_allAt {A : Type} (inner : string -> A -> list ZodIssue)
      (key : string) (v : option A) :
  (forall x, allAt key (inner key x)) -> allAt key (optional inner key v).
Proof.
  intros Hinner. destruct v as [x |]; simpl; [apply Hinner | constructor].
Qed.

Lemma includes_head_singleton (keys : list string) (key : string) :
  JS.includes keys (head [key]) = true <-> In key keys.
Proof.
  simpl. rewrite existsb_exists. split.
  - intros (k & Hin & Heq). apply String.eqb_eq in Heq. now subst.
  - intros Hin. exists key. split; [exact Hin | apply String.eqb_refl].
Qed.

Lemma issuesAt_app (keys : list string) (l1 l2 : list ZodIssue) :
  issuesAt keys (l1 ++ l2) = (issuesAt keys l1 ++ issuesAt keys l2)%list.
Proof. unfold issuesAt. apply List.filter_app. Qed.

Lemma issuesAt_keep (keys : list string) (key : string) (l : list ZodIssue) :
  In key keys -> allAt key l -> issuesAt keys l = l.
Proof.
  intros Hin Hall. unfold issuesAt.
  induction Hall as [|i l Hi Hall IH]; simpl; [reflexivity |].
  rewrite Hi. rewrite (proj2 (includes_head_singleton keys key) Hin).
  now rewrite IH.
Qed.

Lemma issuesAt_drop (keys : list string) (key : string) (l : list ZodIssue) :
  ~ In key keys -> allAt key l -> issuesAt keys l = [].
Proof.
  intros Hout Hall. unfold issuesAt.
  induction Hall as [|i l Hi Hall IH]; simpl; [reflexivity |].
  rewrite Hi.
  destruct (JS.includes keys (head [key])) eqn:E.
  - apply includes_head_singleton in E. contradiction.
  - exact IH.
Qed.

End IssuePaths.

(** ** The step schemas against the domain schema *)

Create HintDb issue_paths.

Section StepSchemas.
Import Zod Schema.
Context `{ZodBuiltins}.

Lemma shape_email_allAt (key s : string) : allAt key (shape_email key s).
Proof. apply z_string_allAt. Qed.

Lemma shape_password_allAt (key s : string) : allAt key (shape_password key s).
Proof. apply z_string_allAt. Qed.

Lemma shape_confirmPassword_allAt (key s : string) :
  allAt key (shape_confirmPassword key s).
Proof. apply z_string_allAt. Qed.

Lemma shape_firstName_allAt (key s : string) : allAt key (shape_firstName key s).
Proof. apply z_string_allAt. Qed.

Lemma shape_lastName_allAt (key s : string) : allAt key (shape_lastName key s).
Proof. apply z_string_allAt. Qed.

Lemma shape_phone_allAt (key s : string) : allAt key (shape_phone key s).
Proof. apply z_string_allAt. Qed.

Lemma shape_companyName_allAt (key : string) (v : option string) :
  allAt key (shape_companyName key v).
Proof. apply optional_allAt. intros x. apply z_string_allAt. Qed.

Lemma shape_teamSize_allAt (key : string) (v : option Z) :
  allAt key (shape_teamSize key v).
Proof. apply optional_allAt. intros x. apply z_number_min_allAt. Qed.

Lemma shape_role_allAt (key : string) (v : option string) :
  allAt key (shape_role key v).
Proof. apply optional_allAt. intros x. apply z_string_allAt. Qed.

Lemma shape_companyName_nil (key : string) (v : option string) :
  shape_companyName key v = [].
Proof. destruct v; reflexivity. Qed.

Lemma shape_role_nil (key : string) (v : option string) :
  shape_role key v = [].
Proof. destruct v; reflexivity. Qed.

(** The issues of the refinement, by key. *)
Lemma refinement_at_account (d : OnboardingData) :
  issuesAt ["email"; "password"; "confirmPassword"] (onboardingRefinement d)
  = AccountStepSchema.accountStepRefinement (AccountStepSchema.pick d).
Proof.
  unfold onboardingRefinement, AccountStepSchema.accountStepRefinement. simpl.
  destruct (String.eqb (password d) (confirmPassword d));
    destruct (accountType d); simpl; try reflexivity;
    repeat match goal with
           | |- context [if ?b then _ else _] => destruct b
           end; reflexivity.
Qed.

Lemma refinement_at_profile (d : OnboardingData) :
  issuesAt ["firstName"; "lastName"; "phone"] (onboardingRefinement d) = [].
Proof.
  unfold onboardingRefinement.
  destruct (String.eqb (password d) (confirmPassword d));
    destruct (accountType d); simpl; try reflexivity;
    repeat match goal with
           | |- context [if ?b then _ else _] => destruct b
           end; reflexivity.
Qed.

#[local] Hint Resolve shape_email_allAt shape_password_allAt
  shape_confirmPassword_allAt shape_firstName_allAt shape_lastName_allAt
  shape_phone_allAt shape_companyName_allAt shape_teamSize_allAt
  shape_role_allAt : issue_paths.

Ltac sort_issues :=
  repeat rewrite issuesAt_app;
  repeat match goal with
         | |- context [issuesAt ?keys (?f ?key ?v)] =>
             first
               [ rewrite (issuesAt_keep keys key (f key v))
                   by solve [simpl; tauto | auto with issue_paths]
               | rewrite (issuesAt_drop keys key (f key v))
                   by solve [simpl; intuition discriminate
                            | auto with issue_paths] ]
         end.

(** X1. The account step schema reports, for the three keys of a
    complete record, exactly the issues the domain schema raises at
    those keys, in the same order and with the same messages. *)
Theorem accountStepSchema_agrees_with_domain (d : OnboardingData) :
  AccountStepSchema.accountStepIssues (AccountStepSchema.pick d)
  = issuesAt ["email"; "password"; "confirmPassword"] (onboardingIssues d).
Proof.
  unfold onboardingIssues, onboardingObject.
  unfold AccountStepSchema.accountStepIssues, AccountStepSchema.accountStepObject.
  sort_issues. rewrite refinement_at_account. simpl.
  repeat rewrite <- app_assoc. reflexivity.
Qed.

(** X2. The profile step schema reports exactly the issues the domain
    schema raises at firstName, lastName and phone. *)
Theorem profileStepSchema_agrees_with_domain (d : OnboardingData) :
  ProfileStepSchema.profileStepIssues (ProfileStepSchema.pick d)
  = issuesAt ["firstName"; "lastName"; "phone"] (onboardingIssues d).
Proof.
  unfold onboardingIssues, onboardingObject.
  unfold ProfileStepSchema.profileStepIssues.
  sort_issues. rewrite refinement_at_profile. simpl.
  repeat rewrite app_nil_r. reflexivity.
Qed.

End StepSchemas.

Section StepComposition.
Import Zod Schema.
Context `{ZodBuiltins}.

Lemma refinement_nil_iff (d : OnboardingData) :
  onboardingRefinement d = []
  <-> password d = confirmPassword d
      /\ (accountType d = business ->
          JS.falsy_string (companyName d) = false
          /\ exists n, teamSize d = Some n /\ (1 <= n)%Z).
Proof.
  unfold onboardingRefinement.
  destruct (String.eqb_spec (password d) (confirmPassword d)) as [Hpw | Hpw];
    simpl; [| split; [discriminate | tauto]].
  destruct (accountType d); simpl.
  - split; [intros _; split; [exact Hpw | discriminate] | reflexivity].
  - destruct (companyName d) as [s |]; simpl.
    + destruct s as [| a s]; simpl.
      * split; [discriminate | intros (_ & Hb); destruct (Hb eq_refl); discriminate].
      * destruct (teamSize d) as [n |]; simpl.
        -- destruct (Z.eqb_spec n 0) as [-> | Hn0]; simpl.
           ++ split; [discriminate |].
              intros (_ & Hb). destruct (Hb eq_refl) as (_ & m & Hm & Hle).
              inversion Hm; subst. lia.
           ++ destruct (Z.ltb_spec n 1) as [Hlt | Hge]; simpl.
              ** split; [discriminate |].
                 intros (_ & Hb). destruct (Hb eq_refl) as (_ & m & Hm & Hle).
                 inversion Hm; subst. lia.
              ** split; [| reflexivity].
                 intros _. split; [exact Hpw |]. intros _.
                 split; [reflexivity | exists n; split; [reflexivity | lia]].
        -- split; [discriminate |].
           intros (_ & Hb). destruct (Hb eq_refl) as (_ & m & Hm & _).
           discriminate.
    + split; [discriminate | intros (_ & Hb); destruct (Hb eq_refl); discriminate].
Qed.

Lemma shape_teamSize_nil_iff (key : string) (v : option Z) :
  shape_teamSize key v = [] <-> (forall n, v = Some n -> (1 <= n)%Z).
Proof.
  unfold shape_teamSize, optional, z_number_min.
  destruct v as [n |].
  - destruct (Z.leb_spec 1 n) as [Hle | Hlt].
    + split; [intros _ m Hm; inversion Hm; subst; exact Hle | reflexivity].
    + split; [discriminate | intros Hall; specialize (Hall n eq_refl); lia].
  - split; [intros _ m Hm; discriminate | reflexivity].
Qed.

(** The records the domain schema accepts, in terms of the step schemas. *)
Lemma onboardingIssues_nil_iff (d : OnboardingData) :
  onboardingIssues d = []
  <-> AccountStepSchema.accountStepIssues (AccountStepSchema.pick d) = []
      /\ ProfileStepSchema.profileStepIssues (ProfileStepSchema.pick d) = []
      /\ (forall n, teamSize d = Some n -> (1 <= n)%Z)
      /\ (accountType d = business ->
          JS.falsy_string (companyName d) = false
          /\ exists n, teamSize d = Some n /\ (1 <= n)%Z).
Proof.
  unfold onboardingIssues, onboardingObject.
  unfold AccountStepSchema.accountStepIssues, AccountStepSchema.accountStepObject,
    AccountStepSchema.accountStepRefinement, ProfileStepSchema.profileStepIssues.
  simpl.
  rewrite shape_companyName_nil, shape_role_nil.
  repeat rewrite app_nil.
  rewrite refinement_nil_iff, shape_teamSize_nil_iff.
  destruct (String.eqb_spec (password d) (confirmPassword d)) as [Hpw | Hpw].
  - intuition.
  - intuition discriminate.
Qed.

(** X3. Passing the schemas of the steps composes to passing the domain
    schema: for a business record, when the account, profile and company
    step schemas accept its keys the full schema accepts it; for a
    personal record the account and profile step schemas suffice as long
    as a team size, when present, is at least 1; and a record the full
    schema accepts passes the account and profile step schemas. *)
Theorem step_schemas_compose_to_domain_schema :
  (forall d : OnboardingData,
      accountType d = business ->
      AccountStepSchema.accountStepSchema_accepts (AccountStepSchema.pick d) = true ->
      ProfileStepSchema.profileStepSchema_accepts (ProfileStepSchema.pick d) = true ->
      companyStepSchema_accepts (pickCompany d) = true ->
      onboardingIssues d = [])
  /\ (forall d : OnboardingData,
         accountType d = personal ->
         AccountStepSchema.accountStepSchema_accepts (AccountStepSchema.pick d) = true ->
         ProfileStepSchema.profileStepSchema_accepts (ProfileStepSchema.pick d) = true ->
         (forall n, teamSize d = Some n -> (1 <= n)%Z) ->
         onboardingIssues d = [])
  /\ (forall d : OnboardingData,
         onboardingIssues d = [] ->
         AccountStepSchema.accountStepSchema_accepts (AccountStepSchema.pick d) = true
         /\ ProfileStepSchema.profileStepSchema_accepts (ProfileStepSchema.pick d) = true).
Proof.
  unfold AccountStepSchema.accountStepSchema_accepts,
    ProfileStepSchema.profileStepSchema_accepts.
  split; [| split].
  - intros d Hb Ha Hp Hc.
    apply companyStepSchema_accepts_iff in Hc
      as ((s & Hs & Hlen) & (n & Hn & Hle) & _).
    simpl in Hs, Hn.
    apply onboardingIssues_nil_iff.
    destruct (AccountStepSchema.accountStepIssues _); [| discriminate].
    destruct (ProfileStepSchema.profileStepIssues _); [| discriminate].
    split; [reflexivity |]. split; [reflexivity |]. split.
    + intros m Hm. congruence.
    + intros _. split.
      * rewrite Hs. destruct s; simpl in *; [lia | reflexivity].
      * exists n. split; assumption.
  - intros d Hp Ha Hpr Hts.
    apply onboardingIssues_nil_iff.
    destruct (AccountStepSchema.accountStepIssues _); [| discriminate].
    destruct (ProfileStepSchema.profileStepIssues _); [| discriminate].
    split; [reflexivity |]. split; [reflexivity |]. split; [exact Hts |].
    intros Hb. congruence.
  - intros d Hvalid.
    apply onboardingIssues_nil_iff in Hvalid as (Ha & Hp & _).
    rewrite Ha, Hp. split; reflexivity.
Qed.

End StepComposition.

(** ** The wizard: which failed submissions navigate *)

Section WizardNavigation.
Import Zod Schema MultiStepSingleForm.
Context `{ZodBuiltins}.
Variable backend : OnboardingData -> Api.Reply.

(** Every issue is raised at a single key out of [keys]. *)
Lemma allAt_among (keys : list string) (key : string) (l : list ZodIssue) :
  In key keys -> allAt key l ->
  Forall (fun i => exists k, In k keys /\ path i = [k]) l.
Proof.
  intros Hin Hall. unfold allAt in Hall.
  induction Hall as [|i l Hi Hall IH]; constructor; [| exact IH].
  exists key. split; assumption.
Qed.

Ltac concrete_issues :=
  repeat match goal with
         | |- context [if ?b then _ else _] => destruct b
         end;
  simpl;
  repeat (constructor; [eexists; split; [| reflexivity]; simpl; tauto |]);
  constructor.

Lemma business_issue_keys (d : OnboardingData) :
  Forall (fun i => exists k,
              In k ["email"; "password"; "confirmPassword"; "firstName";
                    "lastName"; "phone"; "companyName"; "teamSize"; "role"]
              /\ path i = [k])
         (onboardingIssues d).
Proof.
  unfold onboardingIssues, onboardingObject.
  rewrite !Forall_app. repeat apply conj.
  - apply (allAt_among _ "email"); [simpl; tauto | apply shape_email_allAt].
  - apply (allAt_among _ "password"); [simpl; tauto | apply shape_password_allAt].
  - apply (allAt_among _ "confirmPassword");
      [simpl; tauto | apply shape_confirmPassword_allAt].
  - apply (allAt_among _ "firstName"); [simpl; tauto | apply shape_firstName_allAt].
  - apply (allAt_among _ "lastName"); [simpl; tauto | apply shape_lastName_allAt].
  - apply (allAt_among _ "phone"); [simpl; tauto | apply shape_phone_allAt].
  - apply (allAt_among _ "companyName");
      [simpl; tauto | apply shape_companyName_allAt].
  - apply (allAt_among _ "teamSize"); [simpl; tauto | apply shape_teamSize_allAt].
  - apply (allAt_among _ "role"); [simpl; tauto | apply shape_role_allAt].
  - unfold onboardingRefinement. concrete_issues.
Qed.

Lemma personal_issue_keys (d : OnboardingData) :
  accountType d = personal ->
  Forall (fun i => exists k,
              In k ["email"; "password"; "confirmPassword"; "firstName";
                    "lastName"; "phone"; "teamSize"]
              /\ path i = [k])
         (onboardingIssues d).
Proof.
  intros Hp. unfold onboardingIssues, onboardingObject.
  rewrite shape_companyName_nil, shape_role_nil.
  rewrite !Forall_app. repeat apply conj; try apply Forall_nil_2.
  - apply (allAt_among _ "email"); [simpl; tauto | apply shape_email_allAt].
  - apply (allAt_among _ "password"); [simpl; tauto | apply shape_password_allAt].
  - apply (allAt_among _ "confirmPassword");
      [simpl; tauto | apply shape_confirmPassword_allAt].
  - apply (allAt_among _ "firstName"); [simpl; tauto | apply shape_firstName_allAt].
  - apply (allAt_among _ "lastName"); [simpl; tauto | apply shape_lastName_allAt].
  - apply (allAt_among _ "phone"); [simpl; tauto | apply shape_phone_allAt].
  - apply (allAt_among _ "teamSize"); [simpl; tauto | apply shape_teamSize_allAt].
  - unfold onboardingRefinement. rewrite Hp. simpl. concrete_issues.
Qed.

Lemma business_key_owned (k : string) :
  In k ["email"; "password"; "confirmPassword"; "firstName";
        "lastName"; "phone"; "companyName"; "teamSize"; "role"] ->
  exists step, In step (steps business) /\ owns (Some k) step = true.
Proof.
  intros Hin. simpl in Hin.
  destruct Hin as [<- | [<- | [<- | [<- | [<- | [<- | [<- | [<- | [<- | []]]]]]]]]].
  1-3: exists {| label := "Account";
                 fields := ["email"; "password"; "confirmPassword"] |};
       split; [simpl; tauto | reflexivity].
  1-3: exists {| label := "Profile";
                 fields := ["firstName"; "lastName"; "phone"] |};
       split; [simpl; tauto | reflexivity].
  1-3: exists {| label := "Company";
                 fields := ["companyName"; "teamSize"; "role"] |};
       split; [simpl; tauto | reflexivity].
Qed.

Lemma personal_key_owned (k : string) :
  In k ["email"; "password"; "confirmPassword"; "firstName"; "lastName"; "phone"] ->
  exists step, In step (steps personal) /\ owns (Some k) step = true.
Proof.
  intros Hin. simpl in Hin.
  destruct Hin as [<- | [<- | [<- | [<- | [<- | [<- | []]]]]]].
  1-3: exists {| label := "Account";
                 fields := ["email"; "password"; "confirmPassword"] |};
       split; [simpl; tauto | reflexivity].
  1-3: exists {| label := "Profile";
                 fields := ["firstName"; "lastName"; "phone"] |};
       split; [simpl; tauto | reflexivity].
Qed.

(** A failed submission whose first issue has an owner moves to it. *)
Lemma onSubmit_navigates (data : OnboardingData) (c : Component)
      (issues : list ZodIssue) :
  onboardingSchema_safeParse data = ParseError issues ->
  (exists step, In step (currentSteps c)
                /\ owns (firstErrorPath issues) step = true) ->
  exists (i : nat) (step : StepConfig),
    Hook.exec (onSubmit backend data) c
    = Hook.exec (setCurrentStep (fun _ => Z.of_nat i)) c
    /\ currentSteps c !! i = Some step
    /\ owns (firstErrorPath issues) step = true.
Proof.
  intros Hp Hex.
  rewrite (onSubmit_failure backend data c issues Hp). cbv zeta.
  destruct (findIndex_found (owns (firstErrorPath issues)) (currentSteps c) Hex)
    as (i & step & Hr & Hl & Hown & _).
  exists i, step. rewrite Hr.
  destruct (Z.of_nat i =? -1)%Z eqn:E; [lia |].
  repeat split; assumption.
Qed.

(** X4. In the wizard, with the step sequence computed from the
    submitted record: a business record that fails the full schema always
    navigates to the step owning the first issue; a personal record that
    fails navigates likewise unless its first issue is at teamSize, in
    which case the component is left exactly as it was. *)
Theorem wizard_failed_submission_navigates_unless_personal_team_size :
  (forall (data : OnboardingData) (c : Component) (issues : list ZodIssue),
      Form.values (form c) = data ->
      accountType data = business ->
      onboardingSchema_safeParse data = ParseError issues ->
      exists (i : nat) (step : StepConfig),
        Hook.exec (onSubmit backend data) c
        = Hook.exec (setCurrentStep (fun _ => Z.of_nat i)) c
        /\ currentSteps c !! i = Some step
        /\ owns (firstErrorPath issues) step = true)
  /\ (forall (data : OnboardingData) (c : Component) (issues : list ZodIssue),
         Form.values (form c) = data ->
         accountType data = personal ->
         onboardingSchema_safeParse data = ParseError issues ->
         (firstErrorPath issues = Some "teamSize"
          /\ Hook.exec (onSubmit backend data) c = c)
         \/ (exists (i : nat) (step : StepConfig),
                Hook.exec (onSubmit backend data) c
                = Hook.exec (setCurrentStep (fun _ => Z.of_nat i)) c
                /\ currentSteps c !! i = Some step
                /\ owns (firstErrorPath issues) step = true)).
Proof.
  split.
  - intros data c issues Hv Hb Hp.
    apply (onSubmit_navigates data c issues Hp).
    destruct (safeParse_error data issues Hp) as (Hi & Hne).
    pose proof (business_issue_keys data) as Hkeys. rewrite Hi in Hkeys.
    destruct issues as [|i0 rest]; [congruence |].
    apply Forall_cons in Hkeys as ((k & Hk & Hpath) & _).
    unfold currentSteps. rewrite Hv, Hb. simpl. rewrite Hpath. simpl.
    apply business_key_owned. exact Hk.
  - intros data c issues Hv Hp Hparse.
    destruct (safeParse_error data issues Hparse) as (Hi & Hne).
    pose proof (personal_issue_keys data Hp) as Hkeys. rewrite Hi in Hkeys.
    destruct issues as [|i0 rest]; [congruence |].
    apply Forall_cons in Hkeys as ((k & Hk & Hpath) & _).
    destruct (String.eqb_spec k "teamSize") as [-> | Hne'].
    + left. split; [simpl; rewrite Hpath; reflexivity |].
      rewrite (onSubmit_failure backend _ c _ Hparse). cbv zeta.
      rewrite findIndex_missing; [reflexivity |].
      intros step Hin. unfold currentSteps in Hin. rewrite Hv, Hp in Hin.
      simpl. rewrite Hpath. simpl in Hin |- *.
      destruct Hin as [<- | [<- | [<- | []]]]; reflexivity.
    + right. apply (onSubmit_navigates _ c _ Hparse).
      unfold currentSteps. rewrite Hv, Hp. simpl. rewrite Hpath. simpl.
      apply personal_key_owned. simpl in Hk |- *.
      intuition congruence.
Qed.

End WizardNavigation.

(** ** The wizard: navigation, draft and outcome of a submission *)

Section WizardLifecycle.
Import Zod Schema MultiStepSingleForm.
Context `{ZodBuiltins}.
Variable backend : OnboardingData -> Api.Reply.

Lemma validateCurrentStep_frame (c : Component) :
  currentStep (Hook.exec validateCurrentStep c) = currentStep c
  /\ Form.values (form (Hook.exec validateCurrentStep c)) = Form.values (form c)
  /\ localStorage (Hook.exec validateCurrentStep c) = localStorage c
  /\ requests (Hook.exec validateCurrentStep c) = requests c.
Proof.
  unfold validateCurrentStep, Hook.exec, Hook.bind, Hook.gets. cbv beta iota.
  destruct (JS.nth_Z (currentSteps c) (currentStep c)) as [cfg |];
    [| cbn; repeat split].
  pose proof (trigger_values resolver (fields cfg) (form c)) as Hv.
  destruct (Form.trigger resolver (fields cfg) (form c)) as [ok f'].
  cbn in *. repeat split. exact Hv.
Qed.

Lemma handleNext_exec (c : Component) :
  Hook.exec handleNext c =
    if Hook.eval validateCurrentStep c
    then Hook.exec
           (setCurrentStep
              (fun prev => Z.min (prev + 1)
                                 (Z.of_nat (length (currentSteps c)) - 1)))
           (Hook.exec validateCurrentStep c)
    else Hook.exec validateCurrentStep c.
Proof.
  unfold handleNext, Hook.exec, Hook.eval, Hook.bind, Hook.gets. cbv beta iota.
  destruct (validateCurrentStep c) as [ok c1]. cbn.
  destruct ok; reflexivity.
Qed.

(** X5. Navigation in the wizard: Next and Back never change the
    collected values, the saved draft or the log of backend calls; Next
    does not move when the step's validation fails, and moves to
    min(index + 1, length - 1) when it passes; Back moves to
    max(index - 1, 0); and below the last step a successful Next followed
    by Back returns to the same index. *)
Theorem wizard_next_and_back (c : Component) :
  (Form.values (form (Hook.exec handleNext c)) = Form.values (form c)
   /\ localStorage (Hook.exec handleNext c) = localStorage c
   /\ requests (Hook.exec handleNext c) = requests c)
  /\ (form (Hook.exec handleBack c) = form c
      /\ localStorage (Hook.exec handleBack c) = localStorage c
      /\ requests (Hook.exec handleBack c) = requests c
      /\ currentStep (Hook.exec handleBack c) = Z.max (currentStep c - 1) 0)
  /\ (Hook.eval validateCurrentStep c = false ->
      currentStep (Hook.exec handleNext c) = currentStep c)
  /\ (Hook.eval validateCurrentStep c = true ->
      currentStep (Hook.exec handleNext c)
      = Z.min (currentStep c + 1) (Z.of_nat (length (currentSteps c)) - 1))
  /\ (Hook.eval validateCurrentStep c = true ->
      (0 <= currentStep c < Z.of_nat (length (currentSteps c)) - 1)%Z ->
      currentStep (Hook.exec handleBack (Hook.exec handleNext c)) = currentStep c).
Proof.
  destruct (validateCurrentStep_frame c) as (Hstep & Hvals & Hstore & Hreq).
  rewrite handleNext_exec.
  split; [| split; [| split; [| split]]].
  - destruct (Hook.eval validateCurrentStep c); cbn; repeat split; assumption.
  - unfold handleBack, Hook.exec. cbn. repeat split.
  - intros ->. exact Hstep.
  - intros ->. unfold Hook.exec at 1. cbn. now rewrite Hstep.
  - intros -> Hrange. unfold handleBack, Hook.exec at 1 2. cbn.
    rewrite Hstep. lia.
Qed.


(** X7. A submission the backend accepts removes the saved draft and
    reports the identifier of the reply; the form's values and the index
    are left as they were, one call is logged, and a component mounted
    afterwards starts from the defaults. *)
Theorem wizard_successful_submission
        (data : OnboardingData) (c : Component) (response : Api.ApiResponse) :
  onboardingIssues data = [] ->
  backend data = Api.Resolved response ->
  Api.success response = true ->
  let c' := Hook.exec (onSubmit backend data) c in
  localStorage c' = delete STORAGE_KEY (localStorage c)
  /\ submitResult c'
     = Some {| success := true;
               message := "Account created successfully! ID: "
                          ++ default "undefined" (Api.data response) |}
  /\ form c' = form c
  /\ currentStep c' = currentStep c
  /\ isSubmitting c' = false
  /\ requests c' = (requests c ++ [data])%list
  /\ Form.values (form (mount (localStorage c'))) = defaultOnboardingValues.
Proof.
  intros Hvalid Hreply Hok. cbv zeta.
  unfold onSubmit. rewrite (safeParse_success data Hvalid).
  unfold Hook.exec, Hook.bind, submitOnboarding. cbn.
  rewrite Hreply. cbn. rewrite Hok. cbn.
  repeat split.
  unfold savedValues. now rewrite lookup_delete_eq.
Qed.


End WizardLifecycle.

(** ** The registration form: schema against steps, and submission *)

Section Registration.
Import Zod ConditionalStepsForm.
Context `{ZodBuiltins}.
Variable backend : EventRegistrationData -> Api.Reply.

Lemma listed_key_has_owner (l : list StepConfig) (k : string) :
  In k (flat_map fields l) ->
  exists step, In step l /\ JS.includes (fields step) (Some k) = true.
Proof.
  intros Hin. apply in_flat_map in Hin as (step & Hstep & Hk).
  exists step. split; [exact Hstep |].
  simpl. apply existsb_exists. exists k. split; [exact Hk | apply String.eqb_refl].
Qed.

Ltac concrete_issues :=
  repeat match goal with
         | |- context [if ?b then _ else _] => destruct b
         end;
  simpl;
  repeat (constructor; [eexists; split; [| reflexivity]; simpl; tauto |]);
  constructor.

Lemma registration_issue_keys (d : EventRegistrationData) :
  Forall (fun i => exists k,
              In k (flat_map fields (steps (attendanceType d)))
              /\ Zod.path i = [k])
         (eventRegistrationIssues d).
Proof.
  unfold eventRegistrationIssues, eventRegistrationObject.
  rewrite !Forall_app. repeat apply conj.
  - apply (allAt_among _ "name"); [| apply z_string_allAt].
    destruct (attendanceType d); simpl; tauto.
  - apply (allAt_among _ "email"); [| apply z_string_allAt].
    destruct (attendanceType d); simpl; tauto.
  - destruct (dietaryRestrictions d); constructor.
  - destruct (timezone d); constructor.
  - apply (allAt_among _ "howDidYouHear"); [| apply z_string_allAt].
    destruct (attendanceType d); simpl; tauto.
  - unfold eventRegistrationRefinement.
    destruct (attendanceType d); simpl; concrete_issues.
Qed.

(** X9. The registration schema raises issues only at fields of the
    step sequence computed for the record's attendance type: every issue
    has an owning step, so a conditional rule never fires on a field of
    a step that is not in the sequence. *)
Theorem registration_issues_are_owned_by_current_steps
        (d : EventRegistrationData) :
  Forall (fun i => exists step,
              In step (steps (attendanceType d))
              /\ JS.includes (fields step) (head (Zod.path i)) = true)
         (eventRegistrationIssues d).
Proof.
  pose proof (registration_issue_keys d) as Hkeys.
  induction Hkeys as [|i l (k & Hk & Hpath) _ IH]; constructor; [| exact IH].
  rewrite Hpath. simpl head. apply listed_key_has_owner. exact Hk.
Qed.

(** X10. The submit handler of the registration form does not validate:
    whatever record it is given, it calls the backend exactly once with
    it, leaves the form store and the index as they were, ends with the
    submitting flag off, and reports the reply. *)
Theorem registration_onSubmit_always_calls_backend
        (data : EventRegistrationData) (c : Component) :
  let c' := Hook.exec (onSubmit backend data) c in
  requests c' = (requests c ++ [data])%list
  /\ form c' = form c
  /\ currentStep c' = currentStep c
  /\ isSubmitting c' = false
  /\ submitResult c'
     = Some match backend data with
            | Api.Resolved response =>
                if Api.success response
                then {| success := true;
                        message := "Registration complete! Confirmation ID: "
                                   ++ default "undefined" (Api.data response) |}
                else {| success := false;
                        message := JS.or_else (Api.error response)
                                              "Something went wrong" |}
            | Api.Rejected =>
                {| success := false;
                   message := "Network error. Please try again." |}
            end.
Proof.
  cbv zeta. unfold onSubmit, Hook.exec, Hook.bind, submitOnboarding. cbn.
  destruct (backend data) as [response |]; cbn;
    [destruct (Api.success response) |]; repeat split.
Qed.

End Registration.

(** ** The mock backend *)

Section MockBackend.
Context {T : Type}.
Variable emailOf : T -> option string.

(** X11. The mock endpoint succeeds exactly when the simulated server
    error does not strike and the payload's email is not the taken one;
    a success carries an identifier and no error, a failure carries a
    non-empty error and no identifier. *)
Theorem submitOnboarding_reply (serverError : bool) (now : string) (payload : T) :
  (Api.success (Api.submitOnboarding emailOf serverError now payload) = true
   <-> serverError = false /\ emailOf payload <> Some "taken@example.com")
  /\ (Api.success (Api.submitOnboarding emailOf serverError now payload) = true ->
      Api.data (Api.submitOnboarding emailOf serverError now payload)
      = Some ("user_" ++ now)
      /\ Api.error (Api.submitOnboarding emailOf serverError now payload) = None)
  /\ (Api.success (Api.submitOnboarding emailOf serverError now payload) = false ->
      Api.data (Api.submitOnboarding emailOf serverError now payload) = None
      /\ exists e,
          Api.error (Api.submitOnboarding emailOf serverError now payload) = Some e
          /\ e <> EmptyString).
Proof.
  unfold Api.submitOnboarding.
  destruct serverError; simpl.
  - split; [split; [discriminate | intros (Hf & _); discriminate] |].
    split; [discriminate |]. intros _. split; [reflexivity |].
    eexists. split; [reflexivity | discriminate].
  - destruct (emailOf payload) as [e |]; simpl.
    + destruct (String.eqb_spec e "taken@example.com") as [-> | Hne]; simpl.
      * split; [split; [discriminate | intros (_ & Hn); congruence] |].
        split; [discriminate |]. intros _. split; [reflexivity |].
        eexists. split; [reflexivity | discriminate].
      * split; [split; [intros _; split; [reflexivity | congruence] | reflexivity] |].
        split; [intros _; split; reflexivity | discriminate].
    + split; [split; [intros _; split; [reflexivity | discriminate] | reflexivity] |].
      split; [intros _; split; reflexivity | discriminate].
Qed.

End MockBackend.

(** ** Drafts *)

Section DraftStorage.
Import DraftApi.
Context {D : Type}.
Variable truthy : D -> bool.

Lemma readDrafts_saveDraft (step : string) (d : D)
      (store : gmap string (gmap string D)) :
  readDrafts (snd (saveDraft step d store)) = <[step := d]> (readDrafts store).
Proof. unfold saveDraft, readDrafts at 1. simpl. now rewrite lookup_insert_eq. Qed.

Lemma readDrafts_clearDrafts (store : gmap string (gmap string D)) :
  readDrafts (clearDrafts store) = ∅.
Proof.
  unfold readDrafts, clearDrafts.
  rewrite lookup_delete_ne by discriminate.
  now rewrite lookup_delete_eq.
Qed.



End DraftStorage.

(** ** The form-per-step flow *)

Section FormPerStepProperties.
Import FormPerStep.
Variable backend : FinalData -> Api.Reply.

(** What a fresh mount loads, read directly off the stored drafts. *)
Lemma restore_spec (store : gmap string (gmap string Draft)) :
  restore store =
    {| account := asAccount (DraftApi.readDrafts store !! "account");
       profile := asProfile (DraftApi.readDrafts store !! "profile");
       preferences := asPreferences (DraftApi.readDrafts store !! "preferences") |}.
Proof.
  unfold restore, loadAllDrafts, loadDraft, Hook.exec, Hook.bind, Hook.gets.
  cbn. unfold DraftApi.loadDraft.
  destruct (DraftApi.readDrafts store !! "account");
    destruct (DraftApi.readDrafts store !! "profile");
    destruct (DraftApi.readDrafts store !! "preferences"); reflexivity.
Qed.

Lemma loadAllDrafts_exec (c : Component) :
  Hook.exec loadAllDrafts c =
    {| currentStep := currentStep c;
       formData := restore (localStorage c);
       isLoading := isLoading c;
       isLoadingDrafts := false;
       submitResult := submitResult c;
       localStorage := localStorage c;
       requests := requests c |}.
Proof.
  rewrite restore_spec.
  unfold loadAllDrafts, loadDraft, Hook.exec, Hook.bind, Hook.gets.
  cbn. unfold DraftApi.loadDraft.
  destruct (DraftApi.readDrafts (localStorage c) !! "account");
    destruct (DraftApi.readDrafts (localStorage c) !! "profile");
    destruct (DraftApi.readDrafts (localStorage c) !! "preferences"); reflexivity.
Qed.

Lemma handleAccountSubmit_exec (data : AccountData) (c : Component) :
  Hook.exec (handleAccountSubmit data) c =
    {| currentStep := 1;
       formData := {| account := Some data;
                      profile := profile (formData c);
                      preferences := preferences (formData c) |};
       isLoading := false;
       isLoadingDrafts := isLoadingDrafts c;
       submitResult := submitResult c;
       localStorage :=
         snd (DraftApi.saveDraft "account" (AccountDraft data) (localStorage c));
       requests := requests c |}.
Proof. reflexivity. Qed.

Lemma handleProfileSubmit_exec (data : ProfileData) (c : Component) :
  Hook.exec (handleProfileSubmit data) c =
    {| currentStep := 2;
       formData := {| account := account (formData c);
                      profile := Some data;
                      preferences := preferences (formData c) |};
       isLoading := false;
       isLoadingDrafts := isLoadingDrafts c;
       submitResult := submitResult c;
       localStorage :=
         snd (DraftApi.saveDraft "profile" (ProfileDraft data) (localStorage c));
       requests := requests c |}.
Proof. reflexivity. Qed.

Lemma restore_after_save (step : string) (d : Draft)
      (store : gmap string (gmap string Draft)) :
  restore (snd (DraftApi.saveDraft step d store)) =
    {| account := asAccount (<[step := d]> (DraftApi.readDrafts store) !! "account");
       profile := asProfile (<[step := d]> (DraftApi.readDrafts store) !! "profile");
       preferences :=
         asPreferences (<[step := d]> (DraftApi.readDrafts store) !! "preferences") |}.
Proof. rewrite restore_spec, readDrafts_saveDraft. reflexivity. Qed.

Lemma restore_after_clear (store : gmap string (gmap string Draft)) :
  restore (DraftApi.clearDrafts store)
  = {| account := None; profile := None; preferences := None |}.
Proof. rewrite restore_spec, readDrafts_clearDrafts. reflexivity. Qed.

(** X14. A step that is submitted is persisted: after the account form
    is submitted the component holds its data and stands on step 1, and
    a fresh mount over the storage loads that data together with what
    was stored for the other steps; likewise for the profile form and
    step 2. *)
Theorem step_submission_survives_reload :
  (forall (data : AccountData) (c : Component),
      account (formData (Hook.exec (handleAccountSubmit data) c)) = Some data
      /\ currentStep (Hook.exec (handleAccountSubmit data) c) = 1%Z
      /\ restore (localStorage (Hook.exec (handleAccountSubmit data) c))
         = {| account := Some data;
              profile := profile (restore (localStorage c));
              preferences := preferences (restore (localStorage c)) |})
  /\ (forall (data : ProfileData) (c : Component),
         profile (formData (Hook.exec (handleProfileSubmit data) c)) = Some data
         /\ currentStep (Hook.exec (handleProfileSubmit data) c) = 2%Z
         /\ restore (localStorage (Hook.exec (handleProfileSubmit data) c))
            = {| account := account (restore (localStorage c));
                 profile := Some data;
                 preferences := preferences (restore (localStorage c)) |}).
Proof.
  split; intros data c.
  - rewrite handleAccountSubmit_exec. cbn [account formData currentStep localStorage].
    split; [reflexivity |]. split; [reflexivity |].
    rewrite restore_after_save, (restore_spec (localStorage c)).
    rewrite lookup_insert_eq.
    rewrite !lookup_insert_ne by discriminate. reflexivity.
  - rewrite handleProfileSubmit_exec. cbn [profile formData currentStep localStorage].
    split; [reflexivity |]. split; [reflexivity |].
    rewrite restore_after_save, (restore_spec (localStorage c)).
    rewrite lookup_insert_eq.
    rewrite !lookup_insert_ne by discriminate. reflexivity.
Qed.

Lemma handlePreferencesSubmit_exec (data : PreferencesData) (c : Component) :
  Hook.exec (handlePreferencesSubmit backend data) c =
    let payload :=
      {| final_account := account (formData c);
         final_profile := profile (formData c);
         final_preferences := data |} in
    let saved :=
      snd (DraftApi.saveDraft "preferences" (PreferencesDraft data) (localStorage c)) in
    match backend payload with
    | Api.Resolved response =>
        {| currentStep := currentStep c;
           formData := formData c;
           isLoading := false;
           isLoadingDrafts := isLoadingDrafts c;
           submitResult :=
             Some (if Api.success response
                   then {| success := true;
                           message := "Account created successfully! ID: "
                                      ++ default "undefined" (Api.data response) |}
                   else {| success := false;
                           message := JS.or_else (Api.error response)
                                                 "Something went wrong" |});
           localStorage := if Api.success response
                           then DraftApi.clearDrafts saved else saved;
           requests := (requests c ++ [payload])%list |}
    | Api.Rejected =>
        {| currentStep := currentStep c;
           formData := formData c;
           isLoading := true;
           isLoadingDrafts := isLoadingDrafts c;
           submitResult := submitResult c;
           localStorage := saved;
           requests := (requests c ++ [payload])%list |}
    end.
Proof.
  cbv zeta.
  unfold handlePreferencesSubmit, Hook.exec, Hook.bind, Hook.gets, submitOnboarding.
  cbn.
  destruct (backend _) as [response |]; cbn; [| reflexivity].
  destruct (Api.success response); reflexivity.
Qed.

(** X15. The final submission of the form-per-step flow sends, exactly
    once, the account and profile data held by the component merged with
    the preferences, and never changes the held data or the index.  On
    success the drafts are cleared, so a reload finds nothing; on a
    failure reply the drafts stay, the preferences just entered
    included; and when the call rejects, the handler stops there: the
    loading flag stays on and nothing is reported. *)
Theorem final_submission_outcomes (data : PreferencesData) (c : Component) :
  let c' := Hook.exec (handlePreferencesSubmit backend data) c in
  let payload :=
    {| final_account := account (formData c);
       final_profile := profile (formData c);
       final_preferences := data |} in
  requests c' = (requests c ++ [payload])%list
  /\ formData c' = formData c
  /\ currentStep c' = currentStep c
  /\ match backend payload with
     | Api.Resolved response =>
         isLoading c' = false
         /\ if Api.success response
            then succeeded c' = true
                 /\ restore (localStorage c')
                    = {| account := None; profile := None; preferences := None |}
            else succeeded c' = false
                 /\ submitResult c'
                    = Some {| success := false;
                              message := JS.or_else (Api.error response)
                                                    "Something went wrong" |}
                 /\ preferences (restore (localStorage c')) = Some data
                 /\ account (restore (localStorage c'))
                    = account (restore (localStorage c))
                 /\ profile (restore (localStorage c'))
                    = profile (restore (localStorage c))
     | Api.Rejected =>
         isLoading c' = true
         /\ submitResult c' = submitResult c
         /\ preferences (restore (localStorage c')) = Some data
     end.
Proof.
  cbv zeta. rewrite handlePreferencesSubmit_exec. cbv zeta.
  destruct (backend _) as [response |];
    cbn [requests formData currentStep isLoading submitResult localStorage].
  - split; [reflexivity |]. split; [reflexivity |]. split; [reflexivity |].
    split; [reflexivity |].
    unfold succeeded. cbn [submitResult].
    destruct (Api.success response); cbn [success].
    + split; [reflexivity | apply restore_after_clear].
    + split; [reflexivity |]. split; [reflexivity |].
      rewrite restore_after_save, (restore_spec (localStorage c)).
      cbn [account profile preferences].
      rewrite lookup_insert_eq.
      rewrite !lookup_insert_ne by discriminate. repeat split.
  - split; [reflexivity |]. split; [reflexivity |]. split; [reflexivity |].
    split; [reflexivity |]. split; [reflexivity |].
    rewrite restore_after_save. cbn [preferences].
    now rewrite lookup_insert_eq.
Qed.

Lemma handleReset_exec (c : Component) :
  Hook.exec handleReset c =
    {| currentStep := 0;
       formData := {| account := None; profile := None; preferences := None |};
       isLoading := isLoading c;
       isLoadingDrafts := isLoadingDrafts c;
       submitResult := None;
       localStorage := DraftApi.clearDrafts (localStorage c);
       requests := requests c |}.
Proof. reflexivity. Qed.

Lemma synced_spec (c : Component) :
  synced c
  <-> account (formData c)
      = asAccount (DraftApi.readDrafts (localStorage c) !! "account")
      /\ profile (formData c)
         = asProfile (DraftApi.readDrafts (localStorage c) !! "profile").
Proof. unfold synced. rewrite restore_spec. reflexivity. Qed.

Lemma synced_after_save (step : string) (d : Draft) (c c' : Component) :
  localStorage c' = snd (DraftApi.saveDraft step d (localStorage c)) ->
  account (formData c') = asAccount (<[step := d]>
                            (DraftApi.readDrafts (localStorage c)) !! "account") ->
  profile (formData c') = asProfile (<[step := d]>
                            (DraftApi.readDrafts (localStorage c)) !! "profile") ->
  synced c'.
Proof.
  intros Hstore Ha Hp. apply synced_spec.
  rewrite Hstore, readDrafts_saveDraft. split; assumption.
Qed.

Lemma handler_exec (e : Event) (c : Component) :
  Hook.exec (handler backend e) c =
    if succeeded c
    then match e with
         | StartOver => Hook.exec handleReset c
         | _ => c
         end
    else if isLoadingDrafts c || isLoading c
    then c
    else match e with
         | AccountSubmitted data =>
             if (currentStep c =? 0)%Z
             then Hook.exec (handleAccountSubmit data) c else c
         | ProfileSubmitted data =>
             if (currentStep c =? 1)%Z
             then Hook.exec (handleProfileSubmit data) c else c
         | ProfileBack =>
             if (currentStep c =? 1)%Z
             then Hook.exec (setCurrentStep 0) c else c
         | PreferencesSubmitted data =>
             if (currentStep c =? 2)%Z
             then Hook.exec (handlePreferencesSubmit backend data) c else c
         | PreferencesBack =>
             if (currentStep c =? 2)%Z
             then Hook.exec (setCurrentStep 1) c else c
         | StartOver => c
         end.
Proof.
  unfold handler, Hook.exec, Hook.bind, Hook.gets. cbv beta iota.
  destruct (succeeded c); [destruct e; reflexivity |].
  destruct (isLoadingDrafts c || isLoading c); [reflexivity |].
  destruct e; try reflexivity; destruct (currentStep c =? _)%Z; reflexivity.
Qed.

Lemma handler_keeps_invariant (e : Event) (c : Component) :
  (0 <= currentStep c <= 2)%Z ->
  succeeded c = true \/ synced c ->
  (0 <= currentStep (Hook.exec (handler backend e) c) <= 2)%Z
  /\ (succeeded (Hook.exec (handler backend e) c) = true
      \/ synced (Hook.exec (handler backend e) c)).
Proof.
  intros Hrange Hinv. rewrite handler_exec.
  destruct (succeeded c) eqn:Hs.
  - destruct e; try (split; [exact Hrange | left; exact Hs]).
    rewrite handleReset_exec. cbn [currentStep]. split; [lia |].
    right. apply synced_spec. cbn [formData localStorage account profile].
    rewrite readDrafts_clearDrafts. split; reflexivity.
  - destruct Hinv as [Hinv | Hsync]; [discriminate |].
    assert (Hsame : (0 <= currentStep c <= 2)%Z
                    /\ (succeeded c = true \/ synced c))
      by (split; [exact Hrange | right; exact Hsync]).
    apply synced_spec in Hsync. destruct Hsync as (Hacc & Hprof).
    destruct (isLoadingDrafts c || isLoading c); [exact Hsame |].
    destruct e as [data | data | | data | |];
      try (destruct (currentStep c =? _)%Z); try exact Hsame.
    + rewrite handleAccountSubmit_exec. cbn [currentStep].
      split; [lia |]. right.
      eapply (synced_after_save "account" (AccountDraft data) c);
        cbn [localStorage formData account profile];
        [reflexivity | now rewrite lookup_insert_eq |].
      rewrite lookup_insert_ne by discriminate. exact Hprof.
    + rewrite handleProfileSubmit_exec. cbn [currentStep].
      split; [lia |]. right.
      eapply (synced_after_save "profile" (ProfileDraft data) c);
        cbn [localStorage formData account profile];
        [reflexivity | | now rewrite lookup_insert_eq].
      rewrite lookup_insert_ne by discriminate. exact Hacc.
    + split; [cbn; lia |]. right. apply synced_spec. split; assumption.
    + rewrite handlePreferencesSubmit_exec. cbv zeta.
      destruct (backend _) as [response |]; cbn [currentStep].
      * split; [exact Hrange |].
        unfold succeeded. cbn [submitResult].
        destruct (Api.success response); cbn [success]; [now left | right].
        eapply (synced_after_save "preferences" (PreferencesDraft data) c);
          cbn [localStorage formData];
          [reflexivity | |];
          rewrite lookup_insert_ne by discriminate; assumption.
      * split; [exact Hrange |]. right.
        eapply (synced_after_save "preferences" (PreferencesDraft data) c);
          cbn [localStorage formData];
          [reflexivity | |];
          rewrite lookup_insert_ne by discriminate; assumption.
    + split; [cbn; lia |]. right. apply synced_spec. split; assumption.
Qed.

(** X16. Through any sequence of user actions on the form-per-step flow,
    from a mount over any storage: the index stays among the three
    steps, and until a submission has succeeded the account and profile
    data the component holds are the ones persisted, so a reload at any
    moment loses none of them. *)
Theorem form_per_step_index_and_drafts_invariant
        (store : gmap string (gmap string Draft)) (es : list Event) :
  (0 <= currentStep (run backend es (Hook.exec loadAllDrafts (mount store))) <= 2)%Z
  /\ (succeeded (run backend es (Hook.exec loadAllDrafts (mount store))) = true
      \/ synced (run backend es (Hook.exec loadAllDrafts (mount store)))).
Proof.
  assert (Hstart : (0 <= currentStep (Hook.exec loadAllDrafts (mount store)) <= 2)%Z
                   /\ (succeeded (Hook.exec loadAllDrafts (mount store)) = true
                       \/ synced (Hook.exec loadAllDrafts (mount store)))).
  { rewrite loadAllDrafts_exec. cbn [currentStep mount]. split; [lia |].
    right. unfold synced. cbn [formData localStorage mount]. split; reflexivity. }
  revert Hstart. generalize (Hook.exec loadAllDrafts (mount store)).
  unfold run. induction es as [|e es IH]; intros c Hc; simpl; [exact Hc |].
  apply IH. destruct Hc as (Hrange & Hinv).
  apply handler_keeps_invariant; assumption.
Qed.

End FormPerStepProperties.

(** ** The further properties on concrete inputs *)

Section FurtherExamples.
Import Zod Schema.

Lemma step_schemas_compose_witness :
  accountType Sample.validRecord = business
  /\ companyStepSchema_accepts (H := Sample.builtins)
       (pickCompany Sample.validRecord) = true
  /\ onboardingIssues (H := Sample.builtins) Sample.validRecord = [].
Proof.
  split; [reflexivity |]. split; [reflexivity |].
  apply (proj1 (@step_schemas_compose_to_domain_schema Sample.builtins));
    reflexivity.
Defined.

Lemma wizard_navigation_witness :
  (exists (i : nat) (step : MultiStepSingleForm.StepConfig),
      Hook.exec (MultiStepSingleForm.onSubmit (H := Sample.builtins)
                   Sample.mockBackend Sample.businessWithoutCompany)
                (Sample.mountedWith Sample.businessWithoutCompany)
      = Hook.exec (MultiStepSingleForm.setCurrentStep (fun _ => Z.of_nat i))
                  (Sample.mountedWith Sample.businessWithoutCompany)
      /\ MultiStepSingleForm.currentSteps
           (Sample.mountedWith Sample.businessWithoutCompany) !! i = Some step
      /\ MultiStepSingleForm.owns (Some "companyName") step = true)
  /\ ((Some "teamSize" = Some "teamSize"
       /\ Hook.exec (MultiStepSingleForm.onSubmit (H := Sample.builtins)
                       Sample.mockBackend Sample.personalWithTeamSizeZero)
                    (Sample.mountedWith Sample.personalWithTeamSizeZero)
          = Sample.mountedWith Sample.personalWithTeamSizeZero)
      \/ (exists (i : nat) (step : MultiStepSingleForm.StepConfig),
             Hook.exec (MultiStepSingleForm.onSubmit (H := Sample.builtins)
                          Sample.mockBackend Sample.personalWithTeamSizeZero)
                       (Sample.mountedWith Sample.personalWithTeamSizeZero)
             = Hook.exec (MultiStepSingleForm.setCurrentStep (fun _ => Z.of_nat i))
                         (Sample.mountedWith Sample.personalWithTeamSizeZero)
             /\ MultiStepSingleForm.currentSteps
                  (Sample.mountedWith Sample.personalWithTeamSizeZero) !! i
                = Some step
             /\ MultiStepSingleForm.owns (Some "teamSize") step = true)).
Proof.
  destruct (@wizard_failed_submission_navigates_unless_personal_team_size
              Sample.builtins Sample.mockBackend) as (Hbusiness & Hpersonal).
  split.
  - apply (Hbusiness Sample.businessWithoutCompany
                     (Sample.mountedWith Sample.businessWithoutCompany)
                     [ {| path := ["companyName"];
                          Zod.message := "Company name is required for business accounts" |} ]);
      reflexivity.
  - apply (Hpersonal Sample.personalWithTeamSizeZero
                     (Sample.mountedWith Sample.personalWithTeamSizeZero)
                     [ {| path := ["teamSize"];
                          Zod.message := "Number must be greater than or equal to 1" |} ]);
      reflexivity.
Defined.

Lemma wizard_next_and_back_witness :
  Hook.eval (MultiStepSingleForm.validateCurrentStep (H := Sample.builtins))
            (Sample.mountedWith Sample.validRecord) = true
  /\ MultiStepSingleForm.currentStep
       (Hook.exec (MultiStepSingleForm.handleNext (H := Sample.builtins))
                  (Sample.mountedWith Sample.validRecord)) = 1%Z
  /\ MultiStepSingleForm.currentStep
       (Hook.exec MultiStepSingleForm.handleBack
          (Hook.exec (MultiStepSingleForm.handleNext (H := Sample.builtins))
                     (Sample.mountedWith Sample.validRecord))) = 0%Z.
Proof.
  destruct (@wizard_next_and_back Sample.builtins
              (Sample.mountedWith Sample.validRecord))
    as (_ & _ & _ & Hnext & Hround).
  split; [reflexivity |]. split.
  - rewrite (Hnext eq_refl). reflexivity.
  - rewrite (Hround eq_refl); [reflexivity |]. vm_compute. split; [discriminate | reflexivity].
Defined.


Lemma wizard_successful_submission_witness :
  MultiStepSingleForm.submitResult
    (Hook.exec (MultiStepSingleForm.onSubmit (H := Sample.builtins)
                  Sample.mockBackend Sample.validRecord)
               (Sample.mountedWith Sample.validRecord))
  = Some {| MultiStepSingleForm.success := true;
            MultiStepSingleForm.message :=
              "Account created successfully! ID: user_1700000000000" |}
  /\ MultiStepSingleForm.localStorage
       (Hook.exec (MultiStepSingleForm.onSubmit (H := Sample.builtins)
                     Sample.mockBackend Sample.validRecord)
                  (Sample.mountedWith Sample.validRecord))
     !! MultiStepSingleForm.STORAGE_KEY = None.
Proof.
  destruct (@wizard_successful_submission Sample.builtins Sample.mockBackend
              Sample.validRecord (Sample.mountedWith Sample.validRecord)
              {| Api.success := true;
                 Api.data := Some "user_1700000000000";
                 Api.error := None |}
              eq_refl eq_refl eq_refl)
    as (Hstore & Hresult & _).
  split; [rewrite Hresult; reflexivity |].
  rewrite Hstore. apply lookup_delete_eq.
Defined.

Lemma submitOnboarding_reply_witness :
  Api.success (Api.submitOnboarding (fun d => Some (email d)) false
                 "1700000000000" Sample.validRecord) = true
  /\ Api.error (Api.submitOnboarding (fun d => Some (email d)) false
                  "1700000000000" Sample.takenRecord)
     = Some "This email is already registered.".
Proof.
  destruct (submitOnboarding_reply (fun d => Some (email d)) false
              "1700000000000" Sample.validRecord) as (Hiff & _).
  split; [| reflexivity].
  apply Hiff. split; [reflexivity | discriminate].
Defined.



End FurtherExamples.

(** ** The registration form: navigation *)

Section RegistrationNavigation.
Import ConditionalStepsForm.
Context `{ZodBuiltins}.

Lemma registration_validate_frame (c : Component) :
  currentStep (Hook.exec validateCurrentStep c) = currentStep c
  /\ Form.values (form (Hook.exec validateCurrentStep c)) = Form.values (form c)
  /\ requests (Hook.exec validateCurrentStep c) = requests c
  /\ submitResult (Hook.exec validateCurrentStep c) = submitResult c.
Proof.
  unfold validateCurrentStep, Hook.exec, Hook.bind, Hook.gets. cbv beta iota.
  destruct (JS.nth_Z (currentSteps c) (currentStep c)) as [cfg |];
    [| cbn; repeat split].
  pose proof (trigger_values resolver (fields cfg) (form c)) as Hv.
  destruct (Form.trigger resolver (fields cfg) (form c)) as [ok f'].
  cbn in *. repeat split. exact Hv.
Qed.

Lemma registration_handleNext_exec (c : Component) :
  Hook.exec handleNext c =
    if Hook.eval validateCurrentStep c
    then Hook.exec
           (setCurrentStep
              (fun prev => Z.min (prev + 1)
                                 (Z.of_nat (length (currentSteps c)) - 1)))
           (Hook.exec validateCurrentStep c)
    else Hook.exec validateCurrentStep c.
Proof.
  unfold handleNext, Hook.exec, Hook.eval, Hook.bind, Hook.gets. cbv beta iota.
  destruct (validateCurrentStep c) as [ok c1]. cbn.
  destruct ok; reflexivity.
Qed.

(** X17. Navigation in the registration form: Next and Back keep the
    collected values, and so the step sequence; Next stays when the
    step's validation fails and otherwise moves to
    min(index + 1, length - 1), so on the last step it stays even when
    the step is valid; Back moves to max(index - 1, 0), so on the first
    step it stays. *)
Theorem registration_next_and_back (c : Component) :
  (Form.values (form (Hook.exec handleNext c)) = Form.values (form c)
   /\ currentSteps (Hook.exec handleNext c) = currentSteps c)
  /\ (form (Hook.exec handleBack c) = form c
      /\ currentStep (Hook.exec handleBack c) = Z.max (currentStep c - 1) 0)
  /\ (Hook.eval validateCurrentStep c = false ->
      currentStep (Hook.exec handleNext c) = currentStep c)
  /\ (Hook.eval validateCurrentStep c = true ->
      currentStep (Hook.exec handleNext c)
      = Z.min (currentStep c + 1) (Z.of_nat (length (currentSteps c)) - 1))
  /\ (currentStep c = (Z.of_nat (length (currentSteps c)) - 1)%Z ->
      currentStep (Hook.exec handleNext c) = currentStep c)
  /\ (currentStep c = 0%Z -> currentStep (Hook.exec handleBack c) = 0%Z).
Proof.
  destruct (registration_validate_frame c) as (Hstep & Hvals & _).
  rewrite registration_handleNext_exec.
  split; [| split; [| split; [| split; [| split]]]].
  - unfold currentSteps.
    destruct (Hook.eval validateCurrentStep c); cbn; rewrite Hvals; split; reflexivity.
  - unfold handleBack, Hook.exec. cbn. split; reflexivity.
  - intros ->. exact Hstep.
  - intros ->. unfold Hook.exec at 1. cbn. now rewrite Hstep.
  - intros Hlast.
    destruct (Hook.eval validateCurrentStep c); [| exact Hstep].
    unfold Hook.exec at 1. cbn. rewrite Hstep. lia.
  - intros Hfirst. unfold handleBack, Hook.exec. cbn. lia.
Qed.

End RegistrationNavigation.

Section RegistrationExamples.
Import ConditionalStepsForm.

Lemma registration_next_and_back_witness :
  currentStep Sample.onLastHybridStep = 4%Z
  /\ currentStep
       (Hook.exec (handleNext (H := Sample.builtins)) Sample.onLastHybridStep) = 4%Z
  /\ currentStep (Hook.exec handleBack mount) = 0%Z.
Proof.
  destruct (@registration_next_and_back Sample.builtins Sample.onLastHybridStep)
    as (_ & _ & _ & _ & Hlast & _).
  destruct (@registration_next_and_back Sample.builtins mount)
    as (_ & _ & _ & _ & _ & Hfirst).
  split; [reflexivity |]. split.
  - rewrite (Hlast eq_refl). reflexivity.
  - apply Hfirst. reflexivity.
Defined.

End RegistrationExamples.
